(** * tool/tsh/config.go: [tsh config] and [tsh config-proxy]

    A shallow embedding of [tool/tsh/config.go] and of the few standard
    library routines it calls ([strings.TrimSuffix], [net.SplitHostPort],
    the field-substitution fragment of [text/template]), followed by the
    properties of the generated OpenSSH configuration and of the argument
    vector handed to the external [ssh] client.

    Go strings are byte sequences: they are modelled by [string] (a list
    of 8-bit [ascii]).  Go [int] indices are modelled by [Z]; the index
    routines return [-1] for "not found" as they do in Go. *)

From Stdlib Require Import String Ascii List ZArith Bool Lia.
Import ListNotations.
Open Scope string_scope.
Open Scope Z_scope.

Set Implicit Arguments.

(** ** Byte strings *)

Module GoString.

(** [len(s)] *)
Definition len (s : string) : Z := Z.of_nat (String.length s).

(** [s[:n]] and [s[n:]] on natural indices. *)
Fixpoint take (n : nat) (s : string) : string :=
  match n, s with
  | S n', String c r => String c (take n' r)
  | _, _ => EmptyString
  end.

Fixpoint drop (n : nat) (s : string) : string :=
  match n, s with
  | S n', String _ r => drop n' r
  | _, _ => s
  end.

(** Go slice expressions [s[lo:hi]], [s[:hi]], [s[lo:]].  Every use below
    is within bounds (Go would panic otherwise). *)
Definition slice (s : string) (lo hi : Z) : string :=
  take (Z.to_nat (hi - lo)) (drop (Z.to_nat lo) s).
Definition slice_to (s : string) (hi : Z) : string := slice s 0 hi.
Definition slice_from (s : string) (lo : Z) : string := slice s lo (len s).

(** [s[i] == c]; an index outside the string matches nothing. *)
Definition byte_is (s : string) (i : Z) (c : ascii) : bool :=
  match String.get (Z.to_nat i) s with
  | Some x => Ascii.eqb x c
  | None => false
  end.

(** [bytealg.IndexByteString]: index of the first [c] in [s], or [-1]. *)
Fixpoint IndexByteString (s : string) (c : ascii) : Z :=
  match s with
  | EmptyString => -1
  | String x r =>
      if Ascii.eqb x c then 0
      else let k := IndexByteString r c in
           if k <? 0 then -1 else k + 1
  end.

(** [bytealg.LastIndexByteString]: index of the last [c] in [s], or [-1]. *)
Fixpoint LastIndexByteString (s : string) (c : ascii) : Z :=
  match s with
  | EmptyString => -1
  | String x r =>
      let k := LastIndexByteString r c in
      if 0 <=? k then k + 1
      else if Ascii.eqb x c then 0 else -1
  end.

(** [strings.HasSuffix]:
    [len(s) >= len(suffix) && s[len(s)-len(suffix):] == suffix] *)
Definition HasSuffix (s suffix : string) : bool :=
  (len suffix <=? len s) &&
  String.eqb (slice_from s (len s - len suffix)) suffix.

(** [strings.TrimSuffix]:
    [if HasSuffix(s, suffix) { return s[:len(s)-len(suffix)] }; return s] *)
Definition TrimSuffix (s suffix : string) : string :=
  if HasSuffix s suffix then slice_to s (len s - len suffix) else s.

(** Does the byte [c] occur in [s]? *)
Fixpoint has_byte (c : ascii) (s : string) : bool :=
  match s with
  | EmptyString => false
  | String x r => Ascii.eqb x c || has_byte c r
  end.

End GoString.
Import GoString.

(** ** Errors *)

(** The error values that flow through [config.go].  [AddrError] is
    [net.AddrError]; [TraceErr] is an error wrapped by [trace.Wrap];
    [Aggregate] is the result of [trace.NewAggregate]; [External] stands
    for an error produced by a collaborator (client construction, the
    proxy connection, the child process). *)
#[warnings="-register-all"]
Inductive error : Type :=
| AddrError (Err Addr : string)
| TraceErr (e : error)
| Aggregate (es : list error)
| External (msg : string).

Inductive result (A : Type) : Type :=
| Ok (a : A)
| Fail (e : error).
Arguments Ok {A} a.
Arguments Fail {A} e.

(** [trace.Wrap]: attaches a stack trace; an already wrapped error is
    returned as it is. *)
Definition trace_Wrap (e : error) : error :=
  match e with
  | TraceErr _ => e
  | _ => TraceErr e
  end.

(** ** net.SplitHostPort *)

(** [net.SplitHostPort] of the Go standard library, branch by branch: it
    accepts [host:port] and [[host]:port], the bracketed form being the
    one for IPv6 literals. *)
Module Net.

Definition missingPort : string := "missing port in address".
Definition tooManyColons : string := "too many colons in address".

Definition addrErr (addr why : string) : result (string * string) :=
  Fail (AddrError why addr).

(** The common tail of [SplitHostPort]: the bracket checks on
    [hostport[j:]] and [hostport[k:]], then the port. *)
Definition finish (hostport host : string) (i j k : Z)
  : result (string * string) :=
  if 0 <=? IndexByteString (slice_from hostport j) "["
  then addrErr hostport "unexpected '[' in address"
  else if 0 <=? IndexByteString (slice_from hostport k) "]"
  then addrErr hostport "unexpected ']' in address"
  else Ok (host, slice_from hostport (i + 1)).

Definition SplitHostPort (hostport : string) : result (string * string) :=
  (* The port starts after the last colon. *)
  let i := LastIndexByteString hostport ":" in
  if i <? 0 then addrErr hostport missingPort
  else if byte_is hostport 0 "[" then
    (* Expect the first ']' just before the last ':'. *)
    let end_ := IndexByteString hostport "]" in
    if end_ <? 0 then addrErr hostport "missing ']' in address"
    else if end_ + 1 =? len hostport then
      (* There can't be a ':' behind the ']' now. *)
      addrErr hostport missingPort
    else if end_ + 1 =? i then
      (* The expected result. *)
      finish hostport (slice hostport 1 end_) i 1 (end_ + 1)
    else if byte_is hostport (end_ + 1) ":" then
      addrErr hostport tooManyColons
    else addrErr hostport missingPort
  else
    let host := slice_to hostport i in
    if 0 <=? IndexByteString host ":" then addrErr hostport tooManyColons
    else finish hostport host i 0 0.

End Net.

(** ** fmt.Sprintf, restricted to the [%s] verb *)

Definition LF : string := String "010" EmptyString.
Definition DQ : string := String "034" EmptyString.

(** [fmt.Sprintf(format, a...)] for formats whose only verb is [%s] and
    whose operands are strings.  A verb without operand prints Go's
    [%!s(MISSING)]; operands left over are dropped (Go would report them
    as [%!(EXTRA ...)]).  The formats of [config.go] have as many verbs as
    operands and reach neither case. *)
Fixpoint Sprintf (format : string) (a : list string) : string :=
  match format with
  | EmptyString => EmptyString
  | String c r =>
      match r with
      | String d r' =>
          if Ascii.eqb c "%" && Ascii.eqb d "s" then
            match a with
            | x :: a' => x ++ Sprintf r' a'
            | [] => "%!s(MISSING)" ++ Sprintf r' []
            end
          else String c (Sprintf r a)
      | EmptyString => String c EmptyString
      end
  end.

(** ** text/template, restricted to text and [{{ .Field }}] actions *)

Module Template.

(** Lexer items: literal text, or the raw text between [{{] and [}}]. *)
Inductive item : Type :=
| itemText (text : string)
| itemAction (raw : string).

Definition push (c : ascii) (r : string * list item) : string * list item :=
  (String c (fst r), snd r).

(** [lex inAction s] returns the text of the current item and the items
    that follow it.  An action left open at the end of input is an
    error, as in [text/template]. *)
Fixpoint lex (inAction : bool) (s : string) : result (string * list item) :=
  match s with
  | EmptyString =>
      if inAction then Fail (External "template: unclosed action")
      else Ok (EmptyString, [])
  | String c r =>
      match r with
      | String d r' =>
          if negb inAction && Ascii.eqb c "{" && Ascii.eqb d "{" then
            match lex true r' with
            | Ok (raw, items) => Ok (EmptyString, itemAction raw :: items)
            | Fail e => Fail e
            end
          else if inAction && Ascii.eqb c "}" && Ascii.eqb d "}" then
            match lex false r' with
            | Ok (text, items) => Ok (EmptyString, itemText text :: items)
            | Fail e => Fail e
            end
          else
            match lex inAction r with
            | Ok p => Ok (push c p)
            | Fail e => Fail e
            end
      | EmptyString =>
          if inAction then Fail (External "template: unclosed action")
          else Ok (String c EmptyString, [])
      end
  end.

(** Parse tree: the two node kinds the template of [config.go] uses. *)
Inductive Node : Type :=
| TextNode (text : string)
| FieldNode (ident : string).

Fixpoint ltrim (s : string) : string :=
  match s with
  | String c r => if Ascii.eqb c " " then ltrim r else s
  | EmptyString => EmptyString
  end.

Fixpoint rtrim (s : string) : string :=
  match s with
  | String c r =>
      let r' := rtrim r in
      if Ascii.eqb c " " && String.eqb r' EmptyString then EmptyString
      else String c r'
  | EmptyString => EmptyString
  end.

(** An action is accepted when, spaces apart, it is a single field
    reference [.Ident]. *)
Definition parseAction (raw : string) : result Node :=
  match rtrim (ltrim raw) with
  | String c ident =>
      if Ascii.eqb c "." && negb (String.eqb ident EmptyString)
         && negb (has_byte " " ident) && negb (has_byte "." ident)
      then Ok (FieldNode ident)
      else Fail (External "template: unsupported action")
  | EmptyString => Fail (External "template: missing value for command")
  end.

Fixpoint parseItems (items : list item) : result (list Node) :=
  match items with
  | [] => Ok []
  | itemText t :: rest =>
      match parseItems rest with
      | Ok ns => Ok (TextNode t :: ns)
      | Fail e => Fail e
      end
  | itemAction raw :: rest =>
      match parseAction raw, parseItems rest with
      | Ok n, Ok ns => Ok (n :: ns)
      | Fail e, _ => Fail e
      | _, Fail e => Fail e
      end
  end.

(** [template.New(name).Parse(text)] *)
Definition Parse (text : string) : result (list Node) :=
  match lex false text with
  | Ok (t, items) => parseItems (itemText t :: items)
  | Fail e => Fail e
  end.

Section Execute.
(** The data the template is executed against, seen through its field
    lookup (Go resolves [.Ident] by reflection on the struct). *)
Variable data : Type.
Variable field : data -> string -> option string.

(** [t.Execute(wr, data)] into a [strings.Builder]: text is copied,
    a field is printed as it is ([text/template] does not escape).
    Output written before a failing node stays in the builder. *)
Fixpoint Execute (t : list Node) (d : data) (sb : string)
  : string * option error :=
  match t with
  | [] => (sb, None)
  | TextNode text :: rest => Execute rest d (sb ++ text)
  | FieldNode ident :: rest =>
      match field d ident with
      | Some v => Execute rest d (sb ++ v)
      | None => (sb, Some (External ("template: can't evaluate field " ++ ident)))
      end
  end.
End Execute.

End Template.

(** ** tool/tsh/config.go *)

Definition sshConfigTemplate : string :=
  LF ++
  "# Common flags for all {{ .ClusterName }} hosts" ++ LF ++
  "Host *.{{ .ClusterName }} {{ .ProxyHost }}" ++ LF ++
  "    UserKnownHostsFile " ++ DQ ++ "{{ .KnownHostsPath }}" ++ DQ ++ LF ++
  "    IdentityFile " ++ DQ ++ "{{ .IdentityFilePath }}" ++ DQ ++ LF ++
  "    CertificateFile " ++ DQ ++ "{{ .CertificateFilePath }}" ++ DQ ++ LF ++
  LF ++
  "# Flags for all {{ .ClusterName }} hosts except the proxy" ++ LF ++
  "Host *.{{ .ClusterName }} !{{ .ProxyHost }}" ++ LF ++
  "    Port 3022" ++ LF ++
  "    ProxyCommand {{ .TSHPath }} config-proxy --proxy={{ .ProxyHost }}:{{ .ProxyPort }} %h:%p "
    ++ DQ ++ "{{ .ClusterName }}" ++ DQ ++ LF.

Record hostConfigParameters : Type := {
  ClusterName : string;
  KnownHostsPath : string;
  IdentityFilePath : string;
  CertificateFilePath : string;
  ProxyHost : string;
  ProxyPort : string;
  TSHPath : string
}.

(** Field lookup by name on [hostConfigParameters]. *)
Definition hostConfigField (p : hostConfigParameters) (ident : string)
  : option string :=
  if String.eqb ident "ClusterName" then Some (ClusterName p)
  else if String.eqb ident "KnownHostsPath" then Some (KnownHostsPath p)
  else if String.eqb ident "IdentityFilePath" then Some (IdentityFilePath p)
  else if String.eqb ident "CertificateFilePath" then Some (CertificateFilePath p)
  else if String.eqb ident "ProxyHost" then Some (ProxyHost p)
  else if String.eqb ident "ProxyPort" then Some (ProxyPort p)
  else if String.eqb ident "TSHPath" then Some (TSHPath p)
  else None.

(** [trace.WrapWithMessage] *)
Definition trace_WrapWithMessage (e : error) (msg : string) : error :=
  TraceErr e.

(** [writeSSHConfig] generates an OpenSSH config block from
    [sshConfigTemplate].  The [*strings.Builder] is threaded as state:
    the function takes its content and returns the new content. *)
Definition writeSSHConfig (sb : string) (params : hostConfigParameters)
  : string * option error :=
  match Template.Parse sshConfigTemplate with
  | Fail err => (sb, Some (trace_Wrap err))
  | Ok t =>
      match Template.Execute hostConfigField t params sb with
      | (sb', Some err) =>
          (sb', Some (trace_WrapWithMessage err
                        "error generating SSH configuration from template"))
      | (sb', None) => (sb', None)
      end
  end.

(** The fields of [CLIConf] that [config.go] reads. *)
Record CLIConf : Type := {
  Proxy : string;
  ConfigProxyTarget : string;
  SiteName : string;
  executablePath : string
}.

(** The fields of [client.Config] that [onConfig] reads.  The
    [*client.TeleportClient] that [makeClient] returns is seen through
    its [Config]. *)
Record Config : Type := {
  SSHProxyAddr : string;
  WebProxyAddr : string;
  KeysDir : string;
  Username : string
}.

(** [os/exec]: where a standard stream of the child is connected. *)
Inductive stream : Type :=
| DevNull
| OsStdin
| OsStdout
| OsStderr.

(** [exec.Cmd]; [Args] holds the whole [argv], program name first. *)
Record Cmd : Type := {
  Path : string;
  Args : list string;
  Stdin : stream;
  Stdout : stream;
  Stderr : stream
}.

(** [exec.Command(name, arg...)].  Go resolves a [name] without path
    separator through [exec.LookPath]; a name that holds one, as both
    names of [getDefaultSSHPath] do, is the [Path] as it is. *)
Definition exec_Command (name : string) (arg : list string) : Cmd :=
  {| Path := name; Args := name :: arg;
     Stdin := DevNull; Stdout := DevNull; Stderr := DevNull |}.

(** What a run of [tsh] does to the outside world, in order. *)
Inductive event : Type :=
| EvSpawn (child : Cmd)
| EvPrint (text : string)
| EvClose.

(** Effectful code: a function from the events so far to a value and the
    events afterwards. *)
Definition IO (A : Type) : Type := list event -> A * list event.

Definition ret {A : Type} (a : A) : IO A := fun w => (a, w).
Definition bind {A B : Type} (m : IO A) (k : A -> IO B) : IO B :=
  fun w => let (a, w') := m w in k a w'.
Definition emit (e : event) : IO unit := fun w => (tt, (w ++ [e])%list).

Declare Scope io_scope.
Delimit Scope io_scope with io.
Notation "x <- m ;; k" := (bind m (fun x => k))
  (at level 61, m at next level, right associativity) : io_scope.
Notation "m ;;; k" := (bind m (fun _ => k))
  (at level 61, right associativity) : io_scope.

(** [trace.NewAggregate]: the non-nil errors, or nil when there is none. *)
Fixpoint nonNil (errs : list (option error)) : list error :=
  match errs with
  | [] => []
  | Some e :: rest => e :: nonNil rest
  | None :: rest => nonNil rest
  end.

Definition trace_NewAggregate (errs : list (option error)) : option error :=
  match nonNil errs with
  | [] => None
  | es => Some (Aggregate es)
  end.

(** A [for _, x := range xs] loop whose body updates a builder and
    returns from the function on the first error. *)
Section ForRange.
Variable A : Type.
Variable body : string -> A -> string * option error.

Fixpoint forRange (sb : string) (xs : list A) : string * option error :=
  match xs with
  | [] => (sb, None)
  | x :: rest =>
      match body sb x with
      | (sb', Some err) => (sb', Some err)
      | (sb', None) => forRange sb' rest
      end
  end.
End ForRange.

Section Tsh.

(** The platform: [runtime.GOOS], and [constants.WindowsOS] of the
    [api/constants] package. *)
Variable GOOS : string.
Variable WindowsOS : string.

(** The collaborators of [tool/tsh]: client construction, the proxy
    connection and its two queries, and the path helpers of
    [api/profile] and [api/utils/keypaths]. *)
Variable ProxyClient : Type.
Variable RemoteCluster : Type.
Variable makeClient : CLIConf -> bool -> result Config.
Variable ConnectToProxy : Config -> result ProxyClient.
Variable RootClusterName : ProxyClient -> string * option error.
Variable GetLeafClusters : ProxyClient -> list RemoteCluster * option error.
Variable GetName : RemoteCluster -> string.
Variable FullProfilePath : string -> string.
Variable keypaths_KnownHostsPath : string -> string.
Variable keypaths_UserKeyPath : string -> string -> string -> string.
Variable keypaths_SSHCertPath : string -> string -> string -> string -> string.

(** The outcome of running a child process to completion. *)
Variable childResult : Cmd -> option error.

(** [child.Run()] *)
Definition Run (child : Cmd) : IO (option error) :=
  (emit (EvSpawn child) ;;; ret (childResult child))%io.

(** [getDefaultSSHPath] returns a sane default [ssh] path for the
    current platform. *)
Definition getDefaultSSHPath : string :=
  if String.eqb GOOS WindowsOS then "C:\Windows\System32\OpenSSH\ssh.exe"
  else "/usr/bin/ssh".

(** The [for _, leafCluster := range leafClusters] loop of [onConfig]:
    [mk] builds the parameters of the leaf cluster of a given name. *)
Definition writeLeafClusters (sb : string) (leafClusters : list RemoteCluster)
  (mk : string -> hostConfigParameters) : string * option error :=
  forRange
    (fun sb leafCluster =>
       match writeSSHConfig sb (mk (GetName leafCluster)) with
       | (sb', Some err) => (sb', Some (trace_Wrap err))
       | (sb', None) => (sb', None)
       end)
    sb leafClusters.

(** [onConfig] handles the [tsh config] command. *)
Definition onConfig (cf : CLIConf) : IO (option error) :=
  match makeClient cf true with
  | Fail err => ret (Some (trace_Wrap err))
  | Ok tc =>
  match Net.SplitHostPort (SSHProxyAddr tc) with
  | Fail err => ret (Some (trace_Wrap err))
  | Ok (proxyHost, proxyPort) =>
  match ConnectToProxy tc with
  | Fail err => ret (Some (trace_Wrap err))
  | Ok proxyClient =>
    (* defer proxyClient.Close() *)
    (r <- (let (rootClusterName, rootErr) := RootClusterName proxyClient in
           let (leafClusters, leafErr) := GetLeafClusters proxyClient in
           match trace_NewAggregate [rootErr; leafErr] with
           | Some err => ret (Some (trace_Wrap err))
           | None =>
             let keysDir := FullProfilePath (KeysDir tc) in
             let knownHostsPath := keypaths_KnownHostsPath keysDir in
             let identityFilePath :=
               keypaths_UserKeyPath keysDir proxyHost (Username tc) in
             let sb := EmptyString in
             (* Start with a newline in case an existing config file does
                not end with one. *)
             let sb := sb ++ LF in
             let sb := sb ++ Sprintf
               ("#" ++ LF ++
                "# Begin generated Teleport configuration for %s from `tsh config`"
                ++ LF ++ "#" ++ LF) [WebProxyAddr tc] in
             match writeSSHConfig sb {|
               ClusterName := rootClusterName;
               KnownHostsPath := knownHostsPath;
               IdentityFilePath := identityFilePath;
               CertificateFilePath :=
                 keypaths_SSHCertPath keysDir proxyHost (Username tc)
                   rootClusterName;
               ProxyHost := proxyHost;
               ProxyPort := proxyPort;
               TSHPath := executablePath cf |}
             with
             | (_, Some err) => ret (Some (trace_Wrap err))
             | (sb, None) =>
               match writeLeafClusters sb leafClusters (fun name => {|
                 ClusterName := name;
                 KnownHostsPath := knownHostsPath;
                 IdentityFilePath := identityFilePath;
                 CertificateFilePath :=
                   keypaths_SSHCertPath keysDir proxyHost (Username tc)
                     rootClusterName;
                 ProxyHost := proxyHost;
                 ProxyPort := proxyPort;
                 TSHPath := executablePath cf |})
               with
               | (_, Some err) => ret (Some err)
               | (sb, None) =>
                 let sb := sb ++ Sprintf
                   (LF ++ "# End generated Teleport configuration" ++ LF) [] in
                 emit (EvPrint sb) ;;; ret None
               end
             end
           end) ;;
     emit EvClose ;;;
     ret r)%io
  end end end.

(** [onConfigProxy] handles the [tsh config-proxy] command. *)
Definition onConfigProxy (cf : CLIConf) : IO (option error) :=
  match Net.SplitHostPort (Proxy cf) with
  | Fail err => ret (Some (trace_Wrap err))
  | Ok (proxyHost, proxyPort) =>
  match Net.SplitHostPort (ConfigProxyTarget cf) with
  | Fail err => ret (Some (trace_Wrap err))
  | Ok (targetHost, targetPort) =>
    (* If the node is suffixed by either the root or leaf cluster name,
       remove it. *)
    let targetHost := TrimSuffix targetHost ("." ++ proxyHost) in
    let targetHost := TrimSuffix targetHost ("." ++ SiteName cf) in
    let args := ["-p"; proxyPort; proxyHost; "-s"] in
    let args :=
      (args ++ [Sprintf "proxy:%s:%s@%s"
                  [targetHost; targetPort; SiteName cf]])%list in
    let child := exec_Command getDefaultSSHPath args in
    let child := {| Path := Path child; Args := Args child;
                    Stdin := OsStdin; Stdout := OsStdout; Stderr := OsStderr |} in
    Run child
  end end.

End Tsh.

(** * Vocabulary of the statements *)

(** The parse tree of [sshConfigTemplate]. *)
Definition sshConfigNodes : list Template.Node :=
  let T := Template.TextNode in
  let F := Template.FieldNode in
  [ T (LF ++ "# Common flags for all "); F "ClusterName";
    T (" hosts" ++ LF ++ "Host *."); F "ClusterName"; T " "; F "ProxyHost";
    T (LF ++ "    UserKnownHostsFile " ++ DQ); F "KnownHostsPath";
    T (DQ ++ LF ++ "    IdentityFile " ++ DQ); F "IdentityFilePath";
    T (DQ ++ LF ++ "    CertificateFile " ++ DQ); F "CertificateFilePath";
    T (DQ ++ LF ++ LF ++ "# Flags for all "); F "ClusterName";
    T (" hosts except the proxy" ++ LF ++ "Host *."); F "ClusterName";
    T " !"; F "ProxyHost";
    T (LF ++ "    Port 3022" ++ LF ++ "    ProxyCommand "); F "TSHPath";
    T " config-proxy --proxy="; F "ProxyHost"; T ":"; F "ProxyPort";
    T (" %h:%p " ++ DQ); F "ClusterName"; T (DQ ++ LF) ].

(** The lines of a rendered block, without their line ends. *)
Definition sshConfigLines (p : hostConfigParameters) : list string :=
  [ "";
    "# Common flags for all " ++ ClusterName p ++ " hosts";
    "Host *." ++ ClusterName p ++ " " ++ ProxyHost p;
    "    UserKnownHostsFile " ++ DQ ++ KnownHostsPath p ++ DQ;
    "    IdentityFile " ++ DQ ++ IdentityFilePath p ++ DQ;
    "    CertificateFile " ++ DQ ++ CertificateFilePath p ++ DQ;
    "";
    "# Flags for all " ++ ClusterName p ++ " hosts except the proxy";
    "Host *." ++ ClusterName p ++ " !" ++ ProxyHost p;
    "    Port 3022";
    "    ProxyCommand " ++ TSHPath p ++ " config-proxy --proxy="
      ++ ProxyHost p ++ ":" ++ ProxyPort p ++ " %h:%p "
      ++ DQ ++ ClusterName p ++ DQ ].

(** Each line followed by a line feed. *)
Fixpoint unlines (ls : list string) : string :=
  match ls with
  | [] => ""
  | l :: rest => l ++ LF ++ unlines rest
  end.

Definition sshConfigBlock (p : hostConfigParameters) : string :=
  unlines (sshConfigLines p).

(** The lines of a text: the pieces between line feeds. *)
Fixpoint splitLines (s : string) : list string :=
  match s with
  | EmptyString => []
  | String c r =>
      if Ascii.eqb c "010" then "" :: splitLines r
      else match splitLines r with
           | [] => [String c ""]
           | l :: ls => String c l :: ls
           end
  end.

(** A line that opens a [Host] stanza. *)
Definition isHostLine (l : string) : bool := String.prefix "Host " l.

Definition hostLines (text : string) : list string :=
  filter isHostLine (splitLines text).

(** No field of [p] holds a line feed. *)
Definition singleLine (p : hostConfigParameters) : bool :=
  negb (has_byte "010" (ClusterName p)) &&
  negb (has_byte "010" (KnownHostsPath p)) &&
  negb (has_byte "010" (IdentityFilePath p)) &&
  negb (has_byte "010" (CertificateFilePath p)) &&
  negb (has_byte "010" (ProxyHost p)) &&
  negb (has_byte "010" (ProxyPort p)) &&
  negb (has_byte "010" (TSHPath p)).

(** The child process [onConfigProxy] builds: the program is its own
    [argv[0]], the standard streams are those of [tsh]. *)
Definition sshChild (path : string) (args : list string) : Cmd :=
  {| Path := path; Args := path :: args;
     Stdin := OsStdin; Stdout := OsStdout; Stderr := OsStderr |}.

(** A string without colon or square bracket. *)
Definition plain (s : string) : bool :=
  negb (has_byte ":" s) && negb (has_byte "[" s) && negb (has_byte "]" s).

(** Is every spawned child of a run started from [path]? *)
Definition spawnsOnly (path : string) (w : list event) : Prop :=
  Forall (fun e => match e with
                   | EvSpawn child => Path child = path
                   | _ => True
                   end) w.

(** Inputs of the worked examples. *)
Definition tshPath : string := "/usr/local/bin/tsh".

Definition fqdnConf : CLIConf :=
  {| Proxy := "proxy.example.com:443";
     ConfigProxyTarget := "node1.proxy.example.com:3022";
     SiteName := "main"; executablePath := tshPath |}.

Definition siteSuffixConf : CLIConf :=
  {| Proxy := "proxy.example.com:443";
     ConfigProxyTarget := "node1.main:3022";
     SiteName := "main"; executablePath := tshPath |}.

Definition repeatedSuffixConf : CLIConf :=
  {| Proxy := "proxy.example.com:443";
     ConfigProxyTarget := "node1.main.main:3022";
     SiteName := "main"; executablePath := tshPath |}.

Definition sameNameConf : CLIConf :=
  {| Proxy := "main:443";
     ConfigProxyTarget := "node1.main.main:3022";
     SiteName := "main"; executablePath := tshPath |}.

Definition emptySiteConf : CLIConf :=
  {| Proxy := "proxy.example.com:443";
     ConfigProxyTarget := "node1.:3022";
     SiteName := ""; executablePath := tshPath |}.

Definition badProxyConf : CLIConf :=
  {| Proxy := "no-port-here";
     ConfigProxyTarget := "node1.main:3022";
     SiteName := "main"; executablePath := tshPath |}.

Definition badTargetConf : CLIConf :=
  {| Proxy := "proxy.example.com:443";
     ConfigProxyTarget := "no-port-here";
     SiteName := "main"; executablePath := tshPath |}.

(** A child process that exits with status 0. *)
Definition exitsZero (child : Cmd) : option error := None.

(** The blocks of several clusters, one after the other. *)
Fixpoint joinAll (blocks : list string) : string :=
  match blocks with
  | [] => ""
  | b :: rest => b ++ joinAll rest
  end.

(** Parameters whose known-hosts path holds a line feed. *)
Definition twoLineParams : hostConfigParameters :=
  {| ClusterName := "main";
     KnownHostsPath := "k" ++ LF ++ "Host evil";
     IdentityFilePath := "id";
     CertificateFilePath := "cert";
     ProxyHost := "proxy.example.com";
     ProxyPort := "3023";
     TSHPath := tshPath |}.

Definition plainParams : hostConfigParameters :=
  {| ClusterName := "main";
     KnownHostsPath := "/home/alice/.tsh/known_hosts";
     IdentityFilePath := "/home/alice/.tsh/keys/proxy.example.com/alice";
     CertificateFilePath :=
       "/home/alice/.tsh/keys/proxy.example.com/alice-ssh/main-cert.pub";
     ProxyHost := "proxy.example.com";
     ProxyPort := "3023";
     TSHPath := tshPath |}.

(** Collaborators of the worked example of [tsh config]: a profile of
    user [alice], root cluster [root] with leaves [leaf1] and [leaf2]. *)
Definition aliceConfig : Config :=
  {| SSHProxyAddr := "proxy.example.com:3023";
     WebProxyAddr := "proxy.example.com:443";
     KeysDir := "/home/alice/.tsh";
     Username := "alice" |}.

Definition aliceKnownHosts (keysDir : string) : string :=
  keysDir ++ "/known_hosts".
Definition aliceUserKey (keysDir proxy user : string) : string :=
  keysDir ++ "/keys/" ++ proxy ++ "/" ++ user.
Definition aliceSSHCert (keysDir proxy user cluster : string) : string :=
  keysDir ++ "/keys/" ++ proxy ++ "/" ++ user ++ "-ssh/" ++ cluster
    ++ "-cert.pub".

Definition aliceParams (clusterName : string) : hostConfigParameters :=
  {| ClusterName := clusterName;
     KnownHostsPath := "/home/alice/.tsh/known_hosts";
     IdentityFilePath := "/home/alice/.tsh/keys/proxy.example.com/alice";
     CertificateFilePath :=
       "/home/alice/.tsh/keys/proxy.example.com/alice-ssh/root-cert.pub";
     ProxyHost := "proxy.example.com";
     ProxyPort := "3023";
     TSHPath := tshPath |}.

Definition aliceMakeClient (cf : CLIConf) (useProfile : bool)
  : result Config := Ok aliceConfig.
Definition aliceConnect (tc : Config) : result unit := Ok tt.
Definition aliceRoot (proxyClient : unit) : string * option error :=
  ("root", None).
Definition aliceLeaves (proxyClient : unit) : list string * option error :=
  (["leaf1"; "leaf2"], None).
Definition aliceLeafName (leaf : string) : string := leaf.
Definition aliceProfilePath (dir : string) : string := dir.

(** More inputs of worked examples: a bare node name, two malformed
    addresses at once, and a proxy address re-joined from the parts of
    the bracketed [[::1]:3023]. *)
Definition bareHostConf : CLIConf :=
  {| Proxy := "proxy.example.com:443";
     ConfigProxyTarget := "node1:3022";
     SiteName := "main"; executablePath := tshPath |}.

Definition bothBadConf : CLIConf :=
  {| Proxy := "a:b:c";
     ConfigProxyTarget := "no-port-here";
     SiteName := "main"; executablePath := tshPath |}.

Definition rejoinedIPv6Conf : CLIConf :=
  {| Proxy := "::1:3023";
     ConfigProxyTarget := "node1.main:3022";
     SiteName := "main"; executablePath := tshPath |}.

Definition doublySuffixedConf : CLIConf :=
  {| Proxy := "proxy.example.com:443";
     ConfigProxyTarget := "node1.main.proxy.example.com:3022";
     SiteName := "main"; executablePath := tshPath |}.

(** The lines [onConfig] prints before, between and after the blocks. *)
Definition configHeader (addr : string) : list string :=
  [ ""; "#";
    "# Begin generated Teleport configuration for " ++ addr
      ++ " from `tsh config`";
    "#" ].

Definition configFooter : list string :=
  [ ""; "# End generated Teleport configuration" ].

Definition configLines (addr : string) (blocks : list (list string))
  : list string :=
  (configHeader addr ++ concat blocks ++ configFooter)%list.

(** The two [Host] lines of the block of one cluster. *)
Definition clusterHostLines (proxyHost clusterName : string) : list string :=
  [ "Host *." ++ clusterName ++ " " ++ proxyHost;
    "Host *." ++ clusterName ++ " !" ++ proxyHost ].

(** The parameters [onConfig] renders for the cluster [clusterName]: all
    clusters of one run share the first six. *)
Definition clusterParams
  (knownHostsPath identityFilePath certificateFilePath proxyHost proxyPort
     tshPath clusterName : string) : hostConfigParameters :=
  {| ClusterName := clusterName;
     KnownHostsPath := knownHostsPath;
     IdentityFilePath := identityFilePath;
     CertificateFilePath := certificateFilePath;
     ProxyHost := proxyHost;
     ProxyPort := proxyPort;
     TSHPath := tshPath |}.

(** The parameters of the clusters of one run of [onConfig], from the
    path helpers, the command line, the client configuration, the split
    proxy address and the name of the root cluster. *)
Definition paramsOf
  (FullProfilePath knownHostsPath : string -> string)
  (userKeyPath : string -> string -> string -> string)
  (sshCertPath : string -> string -> string -> string -> string)
  (cf : CLIConf) (tc : Config) (proxyHost proxyPort rootClusterName : string)
  : string -> hostConfigParameters :=
  clusterParams
    (knownHostsPath (FullProfilePath (KeysDir tc)))
    (userKeyPath (FullProfilePath (KeysDir tc)) proxyHost (Username tc))
    (sshCertPath (FullProfilePath (KeysDir tc)) proxyHost (Username tc)
       rootClusterName)
    proxyHost proxyPort (executablePath cf).

(** A proxy whose root cluster query fails. *)
Definition aliceRootFails (proxyClient : unit) : string * option error :=
  ("", Some (External "root cluster unavailable")).

(** How many times the byte [c] occurs in [s]. *)
Fixpoint count_byte (c : ascii) (s : string) : nat :=
  match s with
  | EmptyString => 0%nat
  | String x r => ((if Ascii.eqb x c then 1 else 0) + count_byte c r)%nat
  end.

(** Nodes reached through the generated configuration: [node1] in the
    leaf cluster [leaf], in a root cluster named like its proxy, and in a
    leaf cluster whose name is a subdomain of the proxy host. *)
Definition leafNodeConf : CLIConf :=
  {| Proxy := "proxy.example.com:3023";
     ConfigProxyTarget := "node1.leaf:3022";
     SiteName := "leaf"; executablePath := tshPath |}.

Definition rootNodeConf : CLIConf :=
  {| Proxy := "proxy.example.com:3023";
     ConfigProxyTarget := "node1.proxy.example.com:3022";
     SiteName := "proxy.example.com"; executablePath := tshPath |}.

Definition subdomainNodeConf : CLIConf :=
  {| Proxy := "example.com:3023";
     ConfigProxyTarget := "node1.leaf.example.com:3022";
     SiteName := "leaf.example.com"; executablePath := tshPath |}.

(** * Properties *)

(** ** Slicing and suffixes *)

Section StringFacts.

Lemma length_app (a b : string) :
  String.length (a ++ b) = (String.length a + String.length b)%nat.
Proof. induction a as [|c a IH]; simpl; [reflexivity | now rewrite IH]. Qed.

Lemma app_assoc_s (a b c : string) : (a ++ b) ++ c = a ++ b ++ c.
Proof. induction a as [|x a IH]; simpl; [reflexivity | now rewrite IH]. Qed.

Lemma app_nil_r_s (a : string) : a ++ "" = a.
Proof. induction a as [|x a IH]; simpl; [reflexivity | now rewrite IH]. Qed.

Lemma take_app (a b : string) : take (String.length a) (a ++ b) = a.
Proof. induction a as [|x a IH]; simpl; [now destruct b | now rewrite IH]. Qed.

Lemma drop_app (a b : string) : drop (String.length a) (a ++ b) = b.
Proof. induction a as [|x a IH]; simpl; [reflexivity | exact IH]. Qed.

Lemma take_drop (n : nat) (s : string) : take n s ++ drop n s = s.
Proof.
  revert s; induction n as [|n IH]; intros [|c s]; simpl; try reflexivity.
  now rewrite IH.
Qed.

Lemma take_all (s : string) : take (String.length s) s = s.
Proof. rewrite <- (app_nil_r_s s) at 2. apply take_app. Qed.

Lemma length_drop (n : nat) (s : string) :
  String.length (drop n s) = (String.length s - n)%nat.
Proof.
  revert s; induction n as [|n IH]; intros [|c s]; simpl; auto.
Qed.

Lemma slice_to_app (a b : string) : slice_to (a ++ b) (len a) = a.
Proof.
  unfold slice_to, slice, len. simpl.
  rewrite Z.sub_0_r, Nat2Z.id. apply take_app.
Qed.

Lemma slice_from_app (a b : string) : slice_from (a ++ b) (len a) = b.
Proof.
  unfold slice_from, slice, len.
  rewrite Nat2Z.id, drop_app, length_app.
  replace (Z.to_nat _) with (String.length b) by lia.
  apply take_all.
Qed.

Lemma len_app (a b : string) : len (a ++ b) = len a + len b.
Proof. unfold len. rewrite length_app. lia. Qed.

Lemma len_nonneg (a : string) : 0 <= len a.
Proof. unfold len. lia. Qed.

(** Inside the string, [s[:n] ++ s[n:]] is [s]. *)
Lemma slice_split (s : string) (n : Z) :
  0 <= n <= len s -> slice_to s n ++ slice_from s n = s.
Proof.
  intros Hn. unfold slice_to, slice_from, slice, len in *. simpl.
  rewrite Z.sub_0_r.
  replace (Z.to_nat (Z.of_nat (String.length s) - n))
    with (String.length (drop (Z.to_nat n) s)) by (rewrite length_drop; lia).
  rewrite take_all. apply take_drop.
Qed.

Lemma HasSuffix_app (p suffix : string) : HasSuffix (p ++ suffix) suffix = true.
Proof.
  unfold HasSuffix. rewrite len_app.
  replace (len p + len suffix - len suffix) with (len p) by lia.
  rewrite slice_from_app, String.eqb_refl.
  pose proof (len_nonneg p).
  destruct (Z.leb_spec (len suffix) (len p + len suffix)); [reflexivity | lia].
Qed.

Lemma HasSuffix_inv (s suffix : string) :
  HasSuffix s suffix = true ->
  s = slice_to s (len s - len suffix) ++ suffix.
Proof.
  unfold HasSuffix. intros H.
  apply andb_prop in H as [Hlen Heq].
  apply Z.leb_le in Hlen. apply String.eqb_eq in Heq.
  transitivity (slice_to s (len s - len suffix)
                ++ slice_from s (len s - len suffix)).
  - symmetry. apply slice_split. pose proof (len_nonneg suffix). lia.
  - now rewrite Heq.
Qed.

(** [HasSuffix] decides "ends with". *)
Lemma HasSuffix_iff (s suffix : string) :
  HasSuffix s suffix = true <-> exists p, s = p ++ suffix.
Proof.
  split.
  - intros H. eexists. apply HasSuffix_inv, H.
  - intros [p ->]. apply HasSuffix_app.
Qed.

Lemma TrimSuffix_app (p suffix : string) : TrimSuffix (p ++ suffix) suffix = p.
Proof.
  unfold TrimSuffix. rewrite HasSuffix_app, len_app.
  replace (len p + len suffix - len suffix) with (len p) by lia.
  apply slice_to_app.
Qed.

Lemma TrimSuffix_no (s suffix : string) :
  HasSuffix s suffix = false -> TrimSuffix s suffix = s.
Proof. unfold TrimSuffix. now intros ->. Qed.

Lemma app_inv_tail_s (a b c : string) : a ++ c = b ++ c -> a = b.
Proof.
  intros H.
  assert (Hl : String.length a = String.length b).
  { apply (f_equal String.length) in H. rewrite !length_app in H. lia. }
  revert b H Hl. induction a as [|x a IH]; intros [|y b] H Hl;
    simpl in *; try discriminate; [reflexivity|].
  injection H as -> H. f_equal. apply IH; [exact H | lia].
Qed.

(** What [TrimSuffix] returns: the text before the suffix when [s] ends
    with it, and [s] itself otherwise. *)
Lemma TrimSuffix_spec (s suffix : string) :
  (exists p, s = p ++ suffix /\ TrimSuffix s suffix = p) \/
  ((forall p, s <> p ++ suffix) /\ TrimSuffix s suffix = s).
Proof.
  destruct (HasSuffix s suffix) eqn:E.
  - left. apply HasSuffix_iff in E as [p ->]. exists p.
    split; [reflexivity | apply TrimSuffix_app].
  - right. split; [| now apply TrimSuffix_no].
    intros p ->. now rewrite HasSuffix_app in E.
Qed.

End StringFacts.

(** ** Byte search *)

Section IndexFacts.

Variable c : ascii.

Lemma has_byte_app (a b : string) :
  has_byte c (a ++ b) = has_byte c a || has_byte c b.
Proof.
  induction a as [|x a IH]; simpl; [reflexivity|].
  now rewrite IH, orb_assoc.
Qed.

Lemma has_byte_cons (x : ascii) (s : string) :
  has_byte c (String x s) = Ascii.eqb x c || has_byte c s.
Proof. reflexivity. Qed.

(** Both searches answer [-1] or a position inside the string, so the
    indices and slices of [SplitHostPort] stay within bounds. *)
Lemma Index_range (s : string) : -1 <= IndexByteString s c < len s.
Proof.
  unfold len. induction s as [|x s IH]; simpl String.length; simpl IndexByteString.
  - lia.
  - destruct (Ascii.eqb x c); [lia|].
    destruct (Z.ltb_spec (IndexByteString s c) 0); lia.
Qed.

Lemma LastIndex_range (s : string) : -1 <= LastIndexByteString s c < len s.
Proof.
  unfold len. induction s as [|x s IH]; simpl String.length;
    simpl LastIndexByteString.
  - lia.
  - destruct (Z.leb_spec 0 (LastIndexByteString s c)); [lia|].
    destruct (Ascii.eqb x c); lia.
Qed.

(** The first occurrence: nothing before it is [c]. *)
Lemma Index_inv (s : string) :
  0 <= IndexByteString s c ->
  exists a b, s = a ++ String c b /\ has_byte c a = false
              /\ IndexByteString s c = len a.
Proof.
  induction s as [|x s IH]; simpl IndexByteString; [lia|].
  destruct (Ascii.eqb_spec x c) as [->|Hx].
  - intros _. now exists "", s.
  - destruct (Z.ltb_spec (IndexByteString s c) 0) as [Hk|Hk]; [lia|].
    intros _. destruct (IH Hk) as (a & b & -> & Ha & Hi).
    exists (String x a), b. simpl. rewrite Ha, Hi.
    apply Ascii.eqb_neq in Hx. rewrite Hx.
    unfold len. simpl String.length. repeat split; lia.
Qed.

Lemma Index_none (s : string) :
  IndexByteString s c < 0 <-> has_byte c s = false.
Proof.
  induction s as [|x s IH]; simpl.
  - split; [reflexivity | lia].
  - destruct (Ascii.eqb x c); simpl.
    + split; [lia | discriminate].
    + destruct (Z.ltb_spec (IndexByteString s c) 0) as [Hk|Hk].
      * split; [intros _; now apply IH | lia].
      * split; [lia|]. intros H. apply IH in H. lia.
Qed.

Lemma Index_app (a b : string) :
  has_byte c a = false -> IndexByteString (a ++ String c b) c = len a.
Proof.
  unfold len. induction a as [|x a IH]; simpl.
  - now rewrite Ascii.eqb_refl.
  - intros H. apply orb_false_elim in H as [Hx Ha]. rewrite Hx, (IH Ha).
    destruct (Z.ltb_spec (Z.of_nat (String.length a)) 0); lia.
Qed.

(** The last occurrence: nothing after it is [c]. *)
Lemma LastIndex_inv (s : string) :
  0 <= LastIndexByteString s c ->
  exists a b, s = a ++ String c b /\ has_byte c b = false
              /\ LastIndexByteString s c = len a.
Proof.
  induction s as [|x s IH]; simpl LastIndexByteString; [lia|].
  destruct (Z.leb_spec 0 (LastIndexByteString s c)) as [Hk|Hk].
  - intros _. destruct (IH Hk) as (a & b & -> & Hb & Hi).
    exists (String x a), b. rewrite Hi. unfold len. simpl String.length.
    repeat split; [exact Hb | lia].
  - destruct (Ascii.eqb_spec x c) as [->|Hx]; [|lia].
    intros _. exists "", s. repeat split.
    clear IH. induction s as [|y s IHs]; [reflexivity|].
    simpl in Hk. simpl.
    destruct (Z.leb_spec 0 (LastIndexByteString s c)) as [Hk'|Hk']; [lia|].
    destruct (Ascii.eqb y c); [lia|]. now apply IHs.
Qed.

Lemma LastIndex_none (s : string) :
  has_byte c s = false -> LastIndexByteString s c = -1.
Proof.
  induction s as [|x s IH]; simpl; [reflexivity|].
  intros H. apply orb_false_elim in H as [Hx Hs]. now rewrite (IH Hs), Hx.
Qed.

Lemma LastIndex_app (a b : string) :
  has_byte c b = false -> LastIndexByteString (a ++ String c b) c = len a.
Proof.
  intros Hb. unfold len. induction a as [|x a IH]; simpl.
  - now rewrite (LastIndex_none _ Hb), Ascii.eqb_refl.
  - rewrite IH.
    destruct (Z.leb_spec 0 (Z.of_nat (String.length a))); lia.
Qed.

End IndexFacts.

(** ** net.SplitHostPort *)

Section SplitFacts.

Lemma slice_from_0 (s : string) : slice_from s 0 = s.
Proof.
  unfold slice_from, slice, len. simpl. rewrite Z.sub_0_r, Nat2Z.id.
  apply take_all.
Qed.

Lemma slice_from_after (a b : string) (x : ascii) :
  slice_from (a ++ String x b) (len a + 1) = b.
Proof.
  change (a ++ String x b) with (a ++ String x "" ++ b).
  rewrite <- app_assoc_s.
  replace (len a + 1) with (len (a ++ String x "")).
  - apply slice_from_app.
  - rewrite len_app. reflexivity.
Qed.

Lemma slice_inner (x : ascii) (h rest : string) :
  slice (String x (h ++ rest)) 1 (1 + len h) = h.
Proof.
  unfold slice, len. simpl drop.
  replace (Z.to_nat _) with (String.length h) by lia.
  apply take_app.
Qed.

Lemma byte_is_0 (x : ascii) (s : string) (c : ascii) :
  byte_is (String x s) 0 c = Ascii.eqb x c.
Proof. reflexivity. Qed.

(** Two decompositions of one string at the same position agree. *)
Lemma app_eq_len (a b a' b' : string) :
  a ++ b = a' ++ b' -> String.length a = String.length a' ->
  a = a' /\ b = b'.
Proof.
  revert a'. induction a as [|x a IH]; intros [|y a'] H Hl;
    simpl in *; try discriminate; [now split|].
  injection H as -> H. injection Hl as Hl.
  destruct (IH _ H Hl) as [-> ->]. now split.
Qed.

(** The plain form [host:port]. *)
Lemma SplitHostPort_plain (h p : string) :
  has_byte ":" h = false -> has_byte "[" h = false -> has_byte "]" h = false ->
  has_byte ":" p = false -> has_byte "[" p = false -> has_byte "]" p = false ->
  Net.SplitHostPort (h ++ String ":" p) = Ok (h, p).
Proof.
  intros Hc Ho Hcl Pc Po Pcl.
  unfold Net.SplitHostPort. cbv zeta.
  rewrite (LastIndex_app _ h p Pc).
  pose proof (len_nonneg h) as Hh.
  destruct (Z.ltb_spec (len h) 0) as [|_]; [lia|].
  assert (Hb : byte_is (h ++ String ":" p) 0 "[" = false).
  { destruct h as [|x h]; [reflexivity|].
    simpl in Ho. apply orb_false_elim in Ho as [Hx _]. exact Hx. }
  rewrite Hb, slice_to_app.
  apply Index_none in Hc.
  destruct (Z.leb_spec 0 (IndexByteString h ":")) as [|_]; [lia|].
  unfold Net.finish. rewrite slice_from_0, slice_from_after.
  assert (Hno : forall c, has_byte c h = false -> has_byte c p = false ->
                          Ascii.eqb ":" c = false ->
                          (0 <=? IndexByteString (h ++ String ":" p) c) = false).
  { intros c H1 H2 H3. apply Z.leb_gt, Index_none.
    now rewrite has_byte_app, has_byte_cons, H1, H2, H3. }
  rewrite (Hno "["%char), (Hno "]"%char) by (assumption || reflexivity).
  reflexivity.
Qed.

(** The bracketed form [[host]:port]. *)
Lemma SplitHostPort_bracketed (h p : string) :
  has_byte "[" h = false -> has_byte "]" h = false ->
  has_byte ":" p = false -> has_byte "[" p = false -> has_byte "]" p = false ->
  Net.SplitHostPort (String "[" (h ++ String "]" (String ":" p))) = Ok (h, p).
Proof.
  intros Ho Hcl Pc Po Pcl.
  set (s := String "[" (h ++ String "]" (String ":" p))).
  assert (Hs : s = (String "[" (h ++ String "]" "")) ++ String ":" p).
  { unfold s. simpl. now rewrite app_assoc_s. }
  assert (Hs2 : s = String "[" h ++ String "]" (String ":" p)) by reflexivity.
  assert (Hl : len (String "[" (h ++ String "]" "")) = len h + 2).
  { unfold len. simpl. rewrite length_app. simpl. lia. }
  assert (Hl2 : len (String "[" h) = len h + 1).
  { unfold len. simpl. lia. }
  pose proof (len_nonneg h) as Hh.
  unfold Net.SplitHostPort. cbv zeta.
  assert (Hi : LastIndexByteString s ":" = len h + 2).
  { rewrite Hs, (LastIndex_app _ _ p Pc). exact Hl. }
  assert (He : IndexByteString s "]" = len h + 1).
  { rewrite Hs2, Index_app; [exact Hl2|]. simpl. exact Hcl. }
  rewrite Hi, He.
  destruct (Z.ltb_spec (len h + 2) 0) as [|_]; [lia|].
  change (byte_is s 0 "[") with true. cbv iota.
  destruct (Z.ltb_spec (len h + 1) 0) as [|_]; [lia|].
  assert (Hlen : len s = len h + 3 + len p).
  { rewrite Hs, len_app, Hl. unfold len. simpl String.length. lia. }
  pose proof (len_nonneg p) as Hp.
  destruct (Z.eqb_spec (len h + 1 + 1) (len s)) as [|_]; [lia|].
  destruct (Z.eqb_spec (len h + 1 + 1) (len h + 2)) as [_|]; [|lia].
  unfold Net.finish.
  replace (slice s 1 (len h + 1)) with h
    by (symmetry; unfold s; rewrite Z.add_comm; apply slice_inner).
  replace (slice_from s 1) with (h ++ String "]" (String ":" p)).
  2:{ symmetry. change s with (String "[" "" ++ (h ++ String "]" (String ":" p))).
      apply (slice_from_app (String "[" "")). }
  replace (slice_from s (len h + 1 + 1)) with (String ":" p).
  2:{ symmetry. rewrite Hs2, <- Hl2. apply slice_from_after. }
  replace (slice_from s (len h + 2 + 1)) with p.
  2:{ symmetry. rewrite Hs, <- Hl. apply slice_from_after. }
  assert (H1 : (0 <=? IndexByteString (h ++ String "]" (String ":" p)) "[") = false).
  { apply Z.leb_gt, Index_none. rewrite has_byte_app. simpl. now rewrite Ho, Po. }
  assert (H2 : (0 <=? IndexByteString (String ":" p) "]") = false).
  { apply Z.leb_gt, Index_none. simpl. exact Pcl. }
  now rewrite H1, H2.
Qed.

End SplitFacts.

Section SplitInversion.

Lemma not_leb_has (c : ascii) (s : string) :
  (0 <=? IndexByteString s c) = false -> has_byte c s = false.
Proof. intros H. apply Index_none. now apply Z.leb_gt. Qed.

(** The shape of a split that succeeds: either the plain form, whose
    host holds no colon or bracket, or the bracketed form, whose host
    is returned without its brackets. *)
Lemma SplitHostPort_inv (s host port : string) :
  Net.SplitHostPort s = Ok (host, port) ->
  has_byte ":" port = false /\ has_byte "[" port = false
  /\ has_byte "]" port = false /\
  ((s = host ++ String ":" port /\ has_byte ":" host = false
    /\ has_byte "[" host = false /\ has_byte "]" host = false) \/
   (s = String "[" (host ++ String "]" (String ":" port))
    /\ has_byte "[" host = false /\ has_byte "]" host = false)).
Proof.
  unfold Net.SplitHostPort. cbv zeta.
  destruct (Z.ltb_spec (LastIndexByteString s ":") 0) as [|Hi];
    [discriminate|].
  destruct (LastIndex_inv ":" s Hi) as (a & b & Hs & Hb & Hia).
  rewrite Hia.
  destruct (byte_is s 0 "[") eqn:Hbr.
  - destruct (Z.ltb_spec (IndexByteString s "]") 0) as [|He];
      [discriminate|].
    destruct (Index_inv "]" s He) as (a' & b' & Hs' & Ha' & Hea).
    rewrite Hea.
    destruct (Z.eqb_spec (len a' + 1) (len s)); [discriminate|].
    destruct (Z.eqb_spec (len a' + 1) (len a)) as [Hlen|];
      [| destruct (byte_is s (len a' + 1) ":"); discriminate].
    (* a = a' ++ "]" and b' = ":" ++ b *)
    assert (Hsplit : a = a' ++ String "]" "" /\ String ":" b = b').
    { apply app_eq_len.
      - rewrite app_assoc_s. simpl. congruence.
      - rewrite length_app. unfold len in Hlen. simpl. lia. }
    destruct Hsplit as [-> <-].
    destruct a' as [|x h]; [subst s; discriminate Hbr|].
    assert (x = "["%char) as ->.
    { subst s. simpl in Hbr. rewrite byte_is_0 in Hbr.
      now apply Ascii.eqb_eq in Hbr. }
    simpl in Ha'.
    unfold Net.finish.
    assert (E1 : slice_from s 1 = h ++ String "]" (String ":" b)).
    { rewrite Hs'. apply (slice_from_app (String "[" "")). }
    assert (E2 : slice_from s (len (String "[" h) + 1) = String ":" b).
    { rewrite Hs'. apply slice_from_after. }
    assert (E3 : slice_from s (len (String "[" h ++ String "]" "") + 1) = b).
    { rewrite Hs. apply slice_from_after. }
    assert (E4 : slice s 1 (len (String "[" h)) = h).
    { rewrite Hs'. simpl append.
      replace (len (String "[" h)) with (1 + len h)
        by (unfold len; simpl String.length; lia).
      apply slice_inner. }
    rewrite E1, E2, E3, E4.
    destruct (0 <=? IndexByteString (h ++ String "]" (String ":" b)) "[") eqn:F1;
      [discriminate|].
    destruct (0 <=? IndexByteString (String ":" b) "]") eqn:F2;
      [discriminate|].
    intros H. injection H as <- <-.
    apply not_leb_has in F1, F2. rewrite has_byte_app in F1.
    apply orb_false_elim in F1 as [F1 F1']. simpl in F1', F2.
    repeat split; try assumption.
    right. repeat split; assumption.
  - assert (Eh : slice_to s (len a) = a) by (rewrite Hs; apply slice_to_app).
    rewrite Eh.
    destruct (0 <=? IndexByteString a ":") eqn:F0; [discriminate|].
    unfold Net.finish. rewrite slice_from_0.
    destruct (0 <=? IndexByteString s "[") eqn:F1; [discriminate|].
    destruct (0 <=? IndexByteString s "]") eqn:F2; [discriminate|].
    replace (slice_from s (len a + 1)) with b
      by (rewrite Hs; symmetry; apply slice_from_after).
    intros H. injection H as <- <-.
    apply not_leb_has in F0, F1, F2. rewrite Hs, has_byte_app in F1, F2.
    apply orb_false_elim in F1 as [F1 F1'], F2 as [F2 F2'].
    simpl in F1', F2'.
    repeat split; try assumption.
    left. repeat split; assumption.
Qed.

(** Without any colon the split fails, reporting the missing port. *)
Lemma SplitHostPort_no_colon (s : string) :
  has_byte ":" s = false ->
  Net.SplitHostPort s = Fail (AddrError Net.missingPort s).
Proof.
  intros H. unfold Net.SplitHostPort. now rewrite (LastIndex_none _ _ H).
Qed.

(** Every failure of the split is a [net.AddrError] about the input. *)
Lemma SplitHostPort_fail (s : string) (e : error) :
  Net.SplitHostPort s = Fail e -> exists why, e = AddrError why s.
Proof.
  unfold Net.SplitHostPort, Net.finish, Net.addrErr. cbv zeta.
  repeat match goal with
         | |- context [if ?b then _ else _] => destruct b
         end;
    intros H; try discriminate; injection H as <-; eexists; reflexivity.
Qed.

End SplitInversion.

(** ** The rendered block *)

Section Rendering.

Lemma Parse_sshConfigTemplate :
  Template.Parse sshConfigTemplate = Ok sshConfigNodes.
Proof. vm_compute. reflexivity. Qed.

Lemma writeSSHConfig_block (sb : string) (p : hostConfigParameters) :
  writeSSHConfig sb p = (sb ++ sshConfigBlock p, None).
Proof.
  unfold writeSSHConfig. rewrite Parse_sshConfigTemplate.
  unfold sshConfigNodes. cbn [Template.Execute].
  change (hostConfigField p "ClusterName") with (Some (ClusterName p)).
  change (hostConfigField p "ProxyHost") with (Some (ProxyHost p)).
  change (hostConfigField p "ProxyPort") with (Some (ProxyPort p)).
  change (hostConfigField p "TSHPath") with (Some (TSHPath p)).
  change (hostConfigField p "KnownHostsPath") with (Some (KnownHostsPath p)).
  change (hostConfigField p "IdentityFilePath") with (Some (IdentityFilePath p)).
  change (hostConfigField p "CertificateFilePath")
    with (Some (CertificateFilePath p)).
  cbv iota beta.
  f_equal. unfold sshConfigBlock, sshConfigLines, unlines.
  repeat rewrite app_assoc_s. reflexivity.
Qed.

Lemma splitLines_line (l rest : string) :
  has_byte "010" l = false ->
  splitLines (l ++ LF ++ rest) = l :: splitLines rest.
Proof.
  induction l as [|c l IH]; intros H.
  - reflexivity.
  - rewrite has_byte_cons in H. apply orb_false_elim in H as [Hc Hl].
    cbn [append splitLines]. rewrite Hc, (IH Hl). reflexivity.
Qed.

(** Splitting what [unlines] joined gives the lines back, as long as no
    line holds a line feed. *)
Lemma splitLines_unlines (ls : list string) :
  forallb (fun l => negb (has_byte "010" l)) ls = true ->
  splitLines (unlines ls) = ls.
Proof.
  induction ls as [|l ls IH]; intros H; [reflexivity|].
  cbn [forallb] in H. apply andb_prop in H as [Hl Hls].
  apply negb_true_iff in Hl.
  cbn [unlines]. now rewrite (splitLines_line _ _ Hl), (IH Hls).
Qed.

Lemma has_byte_app_false (c : ascii) (a b : string) :
  has_byte c a = false -> has_byte c b = false -> has_byte c (a ++ b) = false.
Proof. intros Ha Hb. now rewrite has_byte_app, Ha, Hb. Qed.

Lemma sshConfigLines_single (p : hostConfigParameters) :
  singleLine p = true ->
  forallb (fun l => negb (has_byte "010" l)) (sshConfigLines p) = true.
Proof.
  unfold singleLine. intros H.
  repeat (apply andb_prop in H as [H ?]).
  repeat match goal with
         | Hn : negb _ = true |- _ => apply negb_true_iff in Hn
         end.
  unfold sshConfigLines. cbn [forallb].
  repeat (apply andb_true_intro; split); try reflexivity;
    apply negb_true_iff;
    repeat (apply has_byte_app_false; try assumption; try reflexivity).
Qed.

End Rendering.

(** ** onConfigProxy *)

Section ProxyFacts.

Variable GOOS : string.
Variable WindowsOS : string.
Variable childResult : Cmd -> option error.

Lemma Sprintf_proxy (host port site : string) :
  Sprintf "proxy:%s:%s@%s" [host; port; site]
  = "proxy:" ++ host ++ ":" ++ port ++ "@" ++ site.
Proof. cbn. now rewrite app_nil_r_s. Qed.

(** Both splits succeed: one child is spawned, with the five arguments. *)
Lemma onConfigProxy_ok (cf : CLIConf) (proxyHost proxyPort targetHost
                          targetPort : string) (w : list event) :
  Net.SplitHostPort (Proxy cf) = Ok (proxyHost, proxyPort) ->
  Net.SplitHostPort (ConfigProxyTarget cf) = Ok (targetHost, targetPort) ->
  let child :=
    sshChild (getDefaultSSHPath GOOS WindowsOS)
      [ "-p"; proxyPort; proxyHost; "-s";
        "proxy:"
          ++ TrimSuffix (TrimSuffix targetHost ("." ++ proxyHost))
               ("." ++ SiteName cf)
          ++ ":" ++ targetPort ++ "@" ++ SiteName cf ] in
  onConfigProxy GOOS WindowsOS childResult cf w
  = (childResult child, (w ++ [EvSpawn child])%list).
Proof.
  intros Hp Ht child. unfold onConfigProxy. rewrite Hp, Ht. cbv zeta.
  rewrite Sprintf_proxy. reflexivity.
Qed.

(** A split fails: the wrapped [net.AddrError] comes back and nothing
    has happened. *)
Lemma onConfigProxy_fail_proxy (cf : CLIConf) (e : error) (w : list event) :
  Net.SplitHostPort (Proxy cf) = Fail e ->
  exists why,
    onConfigProxy GOOS WindowsOS childResult cf w
    = (Some (TraceErr (AddrError why (Proxy cf))), w).
Proof.
  intros H. destruct (SplitHostPort_fail _ H) as [why ->].
  exists why. unfold onConfigProxy. now rewrite H.
Qed.

Lemma onConfigProxy_fail_target (cf : CLIConf) (e : error) (w : list event) :
  Net.SplitHostPort (ConfigProxyTarget cf) = Fail e ->
  exists why addr,
    onConfigProxy GOOS WindowsOS childResult cf w
    = (Some (TraceErr (AddrError why addr)), w)
    /\ (addr = Proxy cf \/ addr = ConfigProxyTarget cf).
Proof.
  intros H. destruct (SplitHostPort_fail _ H) as [why ->].
  unfold onConfigProxy.
  destruct (Net.SplitHostPort (Proxy cf)) as [[ph pp]|e'] eqn:Hp.
  - exists why, (ConfigProxyTarget cf). rewrite H. auto.
  - destruct (SplitHostPort_fail _ Hp) as [why' ->].
    exists why', (Proxy cf). auto.
Qed.

End ProxyFacts.

(** ** The argument vector of [tsh config-proxy] *)

Section ProxyClaims.

Variable GOOS : string.
Variable WindowsOS : string.
Variable childResult : Cmd -> option error.

(** C1: when both [host:port] splits succeed, [onConfigProxy] runs the
    external SSH client once, with exactly the arguments
    [-p <proxyPort> <proxyHost> -s proxy:<strippedTargetHost>:<targetPort>@<siteName>],
    the stripped host being the target host after the two suffix removals. *)
Theorem C1_proxy_argument_vector
  (cf : CLIConf) (proxyHost proxyPort targetHost targetPort : string)
  (w : list event) :
  Net.SplitHostPort (Proxy cf) = Ok (proxyHost, proxyPort) ->
  Net.SplitHostPort (ConfigProxyTarget cf) = Ok (targetHost, targetPort) ->
  let strippedTargetHost :=
    TrimSuffix (TrimSuffix targetHost ("." ++ proxyHost)) ("." ++ SiteName cf) in
  let child :=
    sshChild (getDefaultSSHPath GOOS WindowsOS)
      [ "-p"; proxyPort; proxyHost; "-s";
        "proxy:" ++ strippedTargetHost ++ ":" ++ targetPort
          ++ "@" ++ SiteName cf ] in
  onConfigProxy GOOS WindowsOS childResult cf w
  = (childResult child, (w ++ [EvSpawn child])%list).
Proof. intros Hp Ht. exact (onConfigProxy_ok _ _ _ _ _ Hp Ht). Qed.

(** C2: the target host is normalised by removing a trailing
    [.<proxyHost>] when it is there, and then, from the result, a trailing
    [.<siteName>] when it is there; the host so obtained is the one in
    the last argument. *)
Theorem C2_strip_proxy_then_site
  (cf : CLIConf) (proxyHost proxyPort targetHost targetPort : string)
  (w : list event) :
  Net.SplitHostPort (Proxy cf) = Ok (proxyHost, proxyPort) ->
  Net.SplitHostPort (ConfigProxyTarget cf) = Ok (targetHost, targetPort) ->
  exists afterProxy afterSite : string,
    (targetHost = afterProxy ++ "." ++ proxyHost \/
     ((forall x, targetHost <> x ++ "." ++ proxyHost)
      /\ afterProxy = targetHost)) /\
    (afterProxy = afterSite ++ "." ++ SiteName cf \/
     ((forall x, afterProxy <> x ++ "." ++ SiteName cf)
      /\ afterSite = afterProxy)) /\
    let child :=
      sshChild (getDefaultSSHPath GOOS WindowsOS)
        [ "-p"; proxyPort; proxyHost; "-s";
          "proxy:" ++ afterSite ++ ":" ++ targetPort ++ "@" ++ SiteName cf ] in
    onConfigProxy GOOS WindowsOS childResult cf w
    = (childResult child, (w ++ [EvSpawn child])%list).
Proof.
  intros Hp Ht.
  exists (TrimSuffix targetHost ("." ++ proxyHost)),
         (TrimSuffix (TrimSuffix targetHost ("." ++ proxyHost))
            ("." ++ SiteName cf)).
  split; [| split].
  - destruct (TrimSuffix_spec targetHost ("." ++ proxyHost))
      as [(x & Hx & ->) | [Hno ->]]; [left | right]; auto.
  - destruct (TrimSuffix_spec (TrimSuffix targetHost ("." ++ proxyHost))
                ("." ++ SiteName cf)) as [(x & Hx & Hr) | [Hno Hr]].
    + left. now rewrite Hr.
    + right. now rewrite Hr.
  - exact (onConfigProxy_ok _ _ _ _ _ Hp Ht).
Qed.

(** C3: when the proxy address or the target address does not split,
    [onConfigProxy] returns the (wrapped) [net.AddrError] of that address
    and the world is as it was: no child process has been spawned. *)
Theorem C3_malformed_address_no_spawn
  (cf : CLIConf) (e : error) (w : list event) :
  Net.SplitHostPort (Proxy cf) = Fail e \/
  Net.SplitHostPort (ConfigProxyTarget cf) = Fail e ->
  exists why addr,
    onConfigProxy GOOS WindowsOS childResult cf w
    = (Some (TraceErr (AddrError why addr)), w)
    /\ (addr = Proxy cf \/ addr = ConfigProxyTarget cf).
Proof.
  intros [H | H].
  - destruct (onConfigProxy_fail_proxy GOOS WindowsOS childResult cf w H)
      as [why Hr].
    exists why, (Proxy cf). auto.
  - exact (onConfigProxy_fail_target GOOS WindowsOS childResult cf w H).
Qed.

(** No run of [onConfigProxy], failed or not, starts a child from any
    other program than the default path. *)
Lemma spawns_only_default_path (cf : CLIConf) :
  spawnsOnly (getDefaultSSHPath GOOS WindowsOS)
    (snd (onConfigProxy GOOS WindowsOS childResult cf [])).
Proof.
  unfold spawnsOnly.
  destruct (Net.SplitHostPort (Proxy cf)) as [[ph pp]|e] eqn:Hp.
  - destruct (Net.SplitHostPort (ConfigProxyTarget cf)) as [[th tp]|e] eqn:Ht.
    + rewrite (onConfigProxy_ok GOOS WindowsOS childResult cf [] Hp Ht).
      repeat constructor.
    + unfold onConfigProxy. rewrite Hp, Ht. constructor.
  - unfold onConfigProxy. rewrite Hp. constructor.
Qed.

(** C8: the SSH client [onConfigProxy] runs is chosen by the platform
    alone.  When both addresses split, the one child of the run is
    started from the fixed path of the bundled OpenSSH client,
    [C:\Windows\System32\OpenSSH\ssh.exe], on Windows, and from
    [/usr/bin/ssh] on every other system; the path is the program of the
    child as it stands (nothing is looked up) and is also its [argv[0]]. *)
Theorem C8_default_ssh_path
  (cf : CLIConf) (proxyHost proxyPort targetHost targetPort : string)
  (w : list event) :
  Net.SplitHostPort (Proxy cf) = Ok (proxyHost, proxyPort) ->
  Net.SplitHostPort (ConfigProxyTarget cf) = Ok (targetHost, targetPort) ->
  exists args : list string,
    let child := fun path : string =>
      {| Path := path; Args := path :: args;
         Stdin := OsStdin; Stdout := OsStdout; Stderr := OsStderr |} in
    (GOOS = WindowsOS /\
     onConfigProxy GOOS WindowsOS childResult cf w
     = (childResult (child "C:\Windows\System32\OpenSSH\ssh.exe"),
        (w ++ [EvSpawn (child "C:\Windows\System32\OpenSSH\ssh.exe")])%list))
    \/
    (GOOS <> WindowsOS /\
     onConfigProxy GOOS WindowsOS childResult cf w
     = (childResult (child "/usr/bin/ssh"),
        (w ++ [EvSpawn (child "/usr/bin/ssh")])%list)).
Proof.
  intros Hp Ht.
  eexists. cbv zeta.
  rewrite (onConfigProxy_ok GOOS WindowsOS childResult cf w Hp Ht). cbv zeta.
  unfold getDefaultSSHPath, sshChild.
  destruct (String.eqb_spec GOOS WindowsOS) as [E | E]; [left | right];
    (split; [exact E | reflexivity]).
Qed.

(** C9, amended: each suffix removal takes away at most one occurrence
    of its own suffix.  A target host ending in [.<proxyHost>.<proxyHost>]
    leaves the first step still ending in [.<proxyHost>]; a host that
    reaches the second step ending in [.<siteName>.<siteName>] keeps the
    inner [.<siteName>] in the last argument. *)
Theorem C9_each_step_strips_once
  (cf : CLIConf) (proxyHost proxyPort targetHost targetPort : string)
  (w : list event) :
  Net.SplitHostPort (Proxy cf) = Ok (proxyHost, proxyPort) ->
  Net.SplitHostPort (ConfigProxyTarget cf) = Ok (targetHost, targetPort) ->
  (forall x,
      targetHost = x ++ "." ++ proxyHost ++ "." ++ proxyHost ->
      TrimSuffix targetHost ("." ++ proxyHost) = x ++ "." ++ proxyHost) /\
  (forall x,
      TrimSuffix targetHost ("." ++ proxyHost)
      = x ++ "." ++ SiteName cf ++ "." ++ SiteName cf ->
      let child :=
        sshChild (getDefaultSSHPath GOOS WindowsOS)
          [ "-p"; proxyPort; proxyHost; "-s";
            "proxy:" ++ (x ++ "." ++ SiteName cf) ++ ":" ++ targetPort
              ++ "@" ++ SiteName cf ] in
      onConfigProxy GOOS WindowsOS childResult cf w
      = (childResult child, (w ++ [EvSpawn child])%list)).
Proof.
  intros Hp Ht.
  assert (Hassoc : forall x suffix : string,
             x ++ "." ++ suffix ++ "." ++ suffix
             = (x ++ "." ++ suffix) ++ "." ++ suffix).
  { intros x suffix. now rewrite app_assoc_s. }
  split.
  - intros x ->. rewrite Hassoc. apply TrimSuffix_app.
  - intros x Hx. cbv zeta.
    rewrite (onConfigProxy_ok GOOS WindowsOS childResult cf w Hp Ht).
    cbv zeta. rewrite Hx, Hassoc, TrimSuffix_app. reflexivity.
Qed.

(** C10: with an empty site name the second suffix is a lone [.]: one
    trailing dot is removed from the host that reaches that step, and the
    last argument ends in [@]. *)
Theorem C10_empty_site_name
  (cf : CLIConf) (proxyHost proxyPort targetHost targetPort : string)
  (w : list event) :
  Net.SplitHostPort (Proxy cf) = Ok (proxyHost, proxyPort) ->
  Net.SplitHostPort (ConfigProxyTarget cf) = Ok (targetHost, targetPort) ->
  SiteName cf = "" ->
  exists afterSite : string,
    (TrimSuffix targetHost ("." ++ proxyHost) = afterSite ++ "." \/
     ((forall x, TrimSuffix targetHost ("." ++ proxyHost) <> x ++ ".")
      /\ afterSite = TrimSuffix targetHost ("." ++ proxyHost))) /\
    let child :=
      sshChild (getDefaultSSHPath GOOS WindowsOS)
        [ "-p"; proxyPort; proxyHost; "-s";
          "proxy:" ++ afterSite ++ ":" ++ targetPort ++ "@" ] in
    onConfigProxy GOOS WindowsOS childResult cf w
    = (childResult child, (w ++ [EvSpawn child])%list).
Proof.
  intros Hp Ht Hs.
  exists (TrimSuffix (TrimSuffix targetHost ("." ++ proxyHost)) ".").
  split.
  - destruct (TrimSuffix_spec (TrimSuffix targetHost ("." ++ proxyHost)) ".")
      as [(x & Hx & Hr) | [Hno Hr]].
    + left. now rewrite Hr.
    + right. now rewrite Hr.
  - cbv zeta.
    rewrite (onConfigProxy_ok GOOS WindowsOS childResult cf w Hp Ht).
    cbv zeta. rewrite Hs. reflexivity.
Qed.

End ProxyClaims.

(** The worked example of the specification: the proxy's own domain is
    removed from the node name. *)
Lemma C1_witness :
  Net.SplitHostPort (Proxy fqdnConf) = Ok ("proxy.example.com", "443") /\
  Net.SplitHostPort (ConfigProxyTarget fqdnConf)
  = Ok ("node1.proxy.example.com", "3022") /\
  onConfigProxy "linux" "windows" exitsZero fqdnConf []
  = (None,
     [EvSpawn (sshChild "/usr/bin/ssh"
                 ["-p"; "443"; "proxy.example.com"; "-s";
                  "proxy:node1:3022@main"])]).
Proof.
  assert (Hp : Net.SplitHostPort (Proxy fqdnConf)
               = Ok ("proxy.example.com", "443")) by (vm_compute; reflexivity).
  assert (Ht : Net.SplitHostPort (ConfigProxyTarget fqdnConf)
               = Ok ("node1.proxy.example.com", "3022"))
    by (vm_compute; reflexivity).
  split; [exact Hp | split; [exact Ht |]].
  pose proof (C1_proxy_argument_vector "linux" "windows" exitsZero
                fqdnConf [] Hp Ht) as H.
  vm_compute in H |- *. exact H.
Defined.

Lemma C2_witness :
  exists afterProxy afterSite : string,
    ("node1.main" = afterProxy ++ ".proxy.example.com" \/
     ((forall x, "node1.main" <> x ++ ".proxy.example.com")
      /\ afterProxy = "node1.main")) /\
    (afterProxy = afterSite ++ ".main" \/
     ((forall x, afterProxy <> x ++ ".main") /\ afterSite = afterProxy)) /\
    onConfigProxy "linux" "windows" exitsZero siteSuffixConf []
    = (None,
       [EvSpawn (sshChild "/usr/bin/ssh"
                   ["-p"; "443"; "proxy.example.com"; "-s";
                    "proxy:" ++ afterSite ++ ":3022@main"])]).
Proof.
  assert (Hp : Net.SplitHostPort (Proxy siteSuffixConf)
               = Ok ("proxy.example.com", "443")) by (vm_compute; reflexivity).
  assert (Ht : Net.SplitHostPort (ConfigProxyTarget siteSuffixConf)
               = Ok ("node1.main", "3022")) by (vm_compute; reflexivity).
  pose proof (C2_strip_proxy_then_site "linux" "windows" exitsZero
                siteSuffixConf [] Hp Ht) as H.
  vm_compute in H |- *. exact H.
Defined.

(** The second worked example: a node name qualified by the site name
    comes out bare. *)
Example siteSuffix_stripped :
  onConfigProxy "linux" "windows" exitsZero siteSuffixConf []
  = (None,
     [EvSpawn (sshChild "/usr/bin/ssh"
                 ["-p"; "443"; "proxy.example.com"; "-s";
                  "proxy:node1:3022@main"])]).
Proof. vm_compute. reflexivity. Qed.

(** The order of the two removals matters: with proxy host [proxy] and
    site [main], [node1.main.proxy] loses both suffixes, while removing
    the site suffix first would leave [node1.main]. *)
Example strip_order_matters :
  TrimSuffix (TrimSuffix "node1.main.proxy" ".proxy") ".main" = "node1" /\
  TrimSuffix (TrimSuffix "node1.main.proxy" ".main") ".proxy" = "node1.main".
Proof. split; reflexivity. Qed.

Lemma C3_witness :
  Net.SplitHostPort (Proxy badProxyConf)
  = Fail (AddrError "missing port in address" "no-port-here") /\
  exists why addr,
    onConfigProxy "linux" "windows" exitsZero badProxyConf []
    = (Some (TraceErr (AddrError why addr)), [])
    /\ (addr = "no-port-here" \/ addr = "node1.main:3022").
Proof.
  assert (Hp : Net.SplitHostPort (Proxy badProxyConf)
               = Fail (AddrError "missing port in address" "no-port-here"))
    by (vm_compute; reflexivity).
  split; [exact Hp |].
  pose proof (C3_malformed_address_no_spawn "linux" "windows" exitsZero
                badProxyConf [] (or_introl Hp)) as H.
  vm_compute in H |- *. exact H.
Defined.

(** [no-port-here] as either address: the error names it, nothing runs. *)
Example malformed_either_address :
  onConfigProxy "linux" "windows" exitsZero badProxyConf []
  = (Some (TraceErr (AddrError "missing port in address" "no-port-here")), [])
  /\ onConfigProxy "linux" "windows" exitsZero badTargetConf []
  = (Some (TraceErr (AddrError "missing port in address" "no-port-here")), []).
Proof. split; vm_compute; reflexivity. Qed.

(** On Windows the child of the worked example is the bundled OpenSSH
    client. *)
Lemma C8_witness :
  Net.SplitHostPort (Proxy fqdnConf) = Ok ("proxy.example.com", "443") /\
  Net.SplitHostPort (ConfigProxyTarget fqdnConf)
  = Ok ("node1.proxy.example.com", "3022") /\
  exists args : list string,
    let child := fun path : string =>
      {| Path := path; Args := path :: args;
         Stdin := OsStdin; Stdout := OsStdout; Stderr := OsStderr |} in
    ("windows" = "windows" /\
     onConfigProxy "windows" "windows" exitsZero fqdnConf []
     = (None, [EvSpawn (child "C:\Windows\System32\OpenSSH\ssh.exe")]))
    \/
    ("windows" <> "windows" /\
     onConfigProxy "windows" "windows" exitsZero fqdnConf []
     = (None, [EvSpawn (child "/usr/bin/ssh")])).
Proof.
  assert (Hp : Net.SplitHostPort (Proxy fqdnConf)
               = Ok ("proxy.example.com", "443")) by (vm_compute; reflexivity).
  assert (Ht : Net.SplitHostPort (ConfigProxyTarget fqdnConf)
               = Ok ("node1.proxy.example.com", "3022"))
    by (vm_compute; reflexivity).
  split; [exact Hp | split; [exact Ht |]].
  pose proof (C8_default_ssh_path "windows" "windows" exitsZero fqdnConf []
                Hp Ht) as H.
  vm_compute in H |- *. exact H.
Defined.

(** The same run on Windows and on Linux: only the program differs. *)
Example ssh_path_per_platform :
  onConfigProxy "windows" "windows" exitsZero fqdnConf []
  = (None,
     [EvSpawn (sshChild "C:\Windows\System32\OpenSSH\ssh.exe"
                 ["-p"; "443"; "proxy.example.com"; "-s";
                  "proxy:node1:3022@main"])])
  /\ onConfigProxy "linux" "windows" exitsZero fqdnConf []
  = (None,
     [EvSpawn (sshChild "/usr/bin/ssh"
                 ["-p"; "443"; "proxy.example.com"; "-s";
                  "proxy:node1:3022@main"])]).
Proof. split; vm_compute; reflexivity. Qed.

(** With proxy host and site name both [main], the two steps remove one
    [.main] each: [node1.main.main] comes out as [node1]. *)
Lemma C9_counterexample :
  Net.SplitHostPort (Proxy sameNameConf) = Ok ("main", "443") /\
  Net.SplitHostPort (ConfigProxyTarget sameNameConf)
  = Ok ("node1.main.main", "3022") /\
  onConfigProxy "linux" "windows" exitsZero sameNameConf []
  = (None,
     [EvSpawn (sshChild "/usr/bin/ssh"
                 ["-p"; "443"; "main"; "-s"; "proxy:node1:3022@main"])]) /\
  "proxy:node1:3022@main" <> "proxy:node1.main:3022@main".
Proof.
  repeat split; try (vm_compute; reflexivity). discriminate.
Qed.

Lemma C9_witness :
  TrimSuffix "node1.main.main" ".proxy.example.com" = "node1.main.main" /\
  onConfigProxy "linux" "windows" exitsZero repeatedSuffixConf []
  = (None,
     [EvSpawn (sshChild "/usr/bin/ssh"
                 ["-p"; "443"; "proxy.example.com"; "-s";
                  "proxy:node1.main:3022@main"])]).
Proof.
  assert (Hp : Net.SplitHostPort (Proxy repeatedSuffixConf)
               = Ok ("proxy.example.com", "443")) by (vm_compute; reflexivity).
  assert (Ht : Net.SplitHostPort (ConfigProxyTarget repeatedSuffixConf)
               = Ok ("node1.main.main", "3022")) by (vm_compute; reflexivity).
  assert (Hx : TrimSuffix "node1.main.main" ".proxy.example.com"
               = "node1.main.main") by (vm_compute; reflexivity).
  split; [exact Hx |].
  pose proof (proj2 (C9_each_step_strips_once "linux" "windows" exitsZero
                       repeatedSuffixConf [] Hp Ht) "node1" Hx) as H.
  vm_compute in H |- *. exact H.
Defined.

Lemma C10_witness :
  SiteName emptySiteConf = "" /\
  exists afterSite : string,
    ("node1." = afterSite ++ "." \/
     ((forall x, "node1." <> x ++ ".") /\ afterSite = "node1.")) /\
    onConfigProxy "linux" "windows" exitsZero emptySiteConf []
    = (None,
       [EvSpawn (sshChild "/usr/bin/ssh"
                   ["-p"; "443"; "proxy.example.com"; "-s";
                    "proxy:" ++ afterSite ++ ":3022@"])]).
Proof.
  assert (Hp : Net.SplitHostPort (Proxy emptySiteConf)
               = Ok ("proxy.example.com", "443")) by (vm_compute; reflexivity).
  assert (Ht : Net.SplitHostPort (ConfigProxyTarget emptySiteConf)
               = Ok ("node1.", "3022")) by (vm_compute; reflexivity).
  split; [reflexivity |].
  pose proof (C10_empty_site_name "linux" "windows" exitsZero emptySiteConf []
                Hp Ht eq_refl) as H.
  vm_compute in H |- *. exact H.
Defined.

(** The example of the empty site name. *)
Example emptySite_stripped :
  onConfigProxy "linux" "windows" exitsZero emptySiteConf []
  = (None,
     [EvSpawn (sshChild "/usr/bin/ssh"
                 ["-p"; "443"; "proxy.example.com"; "-s";
                  "proxy:node1:3022@"])]).
Proof. vm_compute. reflexivity. Qed.

(** ** Address parsing *)

Lemma plain_inv (s : string) :
  plain s = true ->
  has_byte ":" s = false /\ has_byte "[" s = false /\ has_byte "]" s = false.
Proof.
  unfold plain. intros H.
  apply andb_prop in H as [H H3]. apply andb_prop in H as [H1 H2].
  now rewrite negb_true_iff in H1, H2, H3.
Qed.

Lemma bracketed_shape (host port : string) :
  String "[" (host ++ String "]" (String ":" port))
  = String "[" (host ++ String "]" "") ++ String ":" port.
Proof. cbn [append]. now rewrite app_assoc_s. Qed.

(** C5, amended: the address is split at its last colon.  Without a colon
    the split fails (missing port), and every failure is a [net.AddrError]
    naming the address.  When the split succeeds the port is the text
    after the last colon; the host is the text before it, or, when the
    address starts with a square bracket, that text without its enclosing
    brackets.  An address [host:port] whose two parts hold no colon and no
    square bracket always splits into these parts. *)
Theorem C5_split_at_last_colon (s : string) :
  (has_byte ":" s = false ->
   Net.SplitHostPort s = Fail (AddrError "missing port in address" s)) /\
  (forall e, Net.SplitHostPort s = Fail e -> exists why, e = AddrError why s) /\
  (forall host port,
      Net.SplitHostPort s = Ok (host, port) ->
      let i := LastIndexByteString s ":" in
      0 <= i /\ port = slice_from s (i + 1) /\
      (if byte_is s 0 "[" then slice_to s i = "[" ++ host ++ "]"
       else slice_to s i = host)) /\
  (forall host port,
      plain host = true -> plain port = true -> s = host ++ ":" ++ port ->
      Net.SplitHostPort s = Ok (host, port)).
Proof.
  repeat split.
  - apply SplitHostPort_no_colon.
  - apply SplitHostPort_fail.
  - apply SplitHostPort_inv in H
      as (Pc & _ & _ & [(-> & _) | (-> & _)]).
    + rewrite (LastIndex_app _ host port Pc). apply len_nonneg.
    + rewrite bracketed_shape.
      rewrite (LastIndex_app _ (String "[" (host ++ String "]" "")) port Pc).
      apply len_nonneg.
  - apply SplitHostPort_inv in H
      as (Pc & _ & _ & [(-> & _) | (-> & _)]).
    + rewrite (LastIndex_app _ host port Pc). symmetry. apply slice_from_after.
    + rewrite bracketed_shape.
      rewrite (LastIndex_app _ (String "[" (host ++ String "]" "")) port Pc).
      symmetry.
      apply (slice_from_after (String "[" (host ++ String "]" "")) port ":").
  - apply SplitHostPort_inv in H
      as (Pc & _ & _ & [(-> & _ & Ho & _) | (-> & _)]).
    + rewrite (LastIndex_app _ host port Pc), slice_to_app.
      assert (Hb : byte_is (host ++ String ":" port) 0 "[" = false).
      { destruct host as [|x h]; [reflexivity|].
        rewrite has_byte_cons in Ho. apply orb_false_elim in Ho as [Hx _].
        exact Hx. }
      now rewrite Hb.
    + change (byte_is (String "[" (host ++ String "]" (String ":" port))) 0 "[")
        with true. cbv iota.
      rewrite bracketed_shape.
      rewrite (LastIndex_app _ (String "[" (host ++ String "]" "")) port Pc).
      apply (slice_to_app (String "[" (host ++ String "]" "")) (String ":" port)).
  - intros host port Hh Hp ->.
    apply plain_inv in Hh as (? & ? & ?), Hp as (? & ? & ?).
    now apply SplitHostPort_plain.
Qed.

(** An IPv6 literal: the host comes back without the brackets that stand
    before the last colon. *)
Lemma C5_counterexample :
  Net.SplitHostPort "[::1]:80" = Ok ("::1", "80") /\
  slice_to "[::1]:80" (LastIndexByteString "[::1]:80" ":") = "[::1]" /\
  "::1" <> "[::1]".
Proof. repeat split; try (vm_compute; reflexivity). discriminate. Qed.

Lemma C5_witness :
  plain "proxy.example.com" = true /\ plain "443" = true /\
  Net.SplitHostPort "proxy.example.com:443" = Ok ("proxy.example.com", "443").
Proof.
  assert (Hh : plain "proxy.example.com" = true) by (vm_compute; reflexivity).
  assert (Hp : plain "443" = true) by (vm_compute; reflexivity).
  split; [exact Hh | split; [exact Hp |]].
  exact (proj2 (proj2 (proj2 (C5_split_at_last_colon "proxy.example.com:443")))
           "proxy.example.com" "443" Hh Hp eq_refl).
Defined.

(** More than one colon outside brackets is refused, although a last
    colon exists. *)
Example split_two_colons :
  Net.SplitHostPort "a:b:c"
  = Fail (AddrError "too many colons in address" "a:b:c").
Proof. vm_compute. reflexivity. Qed.

(** ** The rendered configuration *)

(** C4, amended: for parameters whose fields hold no line feed, the
    rendered block is made of the eleven lines below, each ended by a line
    feed, and exactly two of them open a [Host] stanza: the first matches
    [*.<ClusterName> <ProxyHost>] and is followed by the three quoted
    file settings, the second matches [*.<ClusterName> !<ProxyHost>] and
    is followed by [Port 3022] and the [ProxyCommand], in which [%h:%p]
    stays as written. *)
Theorem C4_two_host_stanzas (sb : string) (p : hostConfigParameters) :
  singleLine p = true ->
  exists block : string,
    writeSSHConfig sb p = (sb ++ block, None) /\
    splitLines block =
      [ "";
        "# Common flags for all " ++ ClusterName p ++ " hosts";
        "Host *." ++ ClusterName p ++ " " ++ ProxyHost p;
        "    UserKnownHostsFile " ++ DQ ++ KnownHostsPath p ++ DQ;
        "    IdentityFile " ++ DQ ++ IdentityFilePath p ++ DQ;
        "    CertificateFile " ++ DQ ++ CertificateFilePath p ++ DQ;
        "";
        "# Flags for all " ++ ClusterName p ++ " hosts except the proxy";
        "Host *." ++ ClusterName p ++ " !" ++ ProxyHost p;
        "    Port 3022";
        "    ProxyCommand " ++ TSHPath p ++ " config-proxy --proxy="
          ++ ProxyHost p ++ ":" ++ ProxyPort p ++ " %h:%p "
          ++ DQ ++ ClusterName p ++ DQ ] /\
    hostLines block =
      [ "Host *." ++ ClusterName p ++ " " ++ ProxyHost p;
        "Host *." ++ ClusterName p ++ " !" ++ ProxyHost p ].
Proof.
  intros Hp. exists (sshConfigBlock p).
  assert (Hl : splitLines (sshConfigBlock p) = sshConfigLines p).
  { apply splitLines_unlines, sshConfigLines_single, Hp. }
  split; [apply writeSSHConfig_block | split].
  - exact Hl.
  - unfold hostLines. rewrite Hl. reflexivity.
Qed.

(** A known-hosts path with a line feed followed by [Host evil] renders
    a block with three [Host] lines. *)
Lemma C4_counterexample :
  hostLines (fst (writeSSHConfig "" twoLineParams))
  = [ "Host *.main proxy.example.com";
      "Host evil" ++ DQ;
      "Host *.main !proxy.example.com" ]
  /\ List.length (hostLines (fst (writeSSHConfig "" twoLineParams))) <> 2%nat.
Proof. split; vm_compute; [reflexivity | discriminate]. Qed.

Lemma C4_witness :
  singleLine plainParams = true /\
  exists block : string,
    writeSSHConfig "" plainParams = (block, None) /\
    hostLines block =
      [ "Host *.main proxy.example.com"; "Host *.main !proxy.example.com" ].
Proof.
  assert (Hs : singleLine plainParams = true) by (vm_compute; reflexivity).
  split; [exact Hs |].
  destruct (C4_two_host_stanzas "" plainParams Hs) as (block & Hw & _ & Hh).
  exists block. split; [exact Hw | exact Hh].
Defined.

(** C7: rendering is a function of the parameters alone.  There is one
    text per parameter value that [writeSSHConfig] appends to whatever the
    builder holds, without error; two renderings of the same value append
    the same bytes. *)
Theorem C7_rendering_deterministic :
  exists render : hostConfigParameters -> string,
    (forall (p : hostConfigParameters) (sb : string),
        writeSSHConfig sb p = (sb ++ render p, None)) /\
    (forall (p : hostConfigParameters) (sb : string),
        writeSSHConfig (fst (writeSSHConfig sb p)) p
        = ((sb ++ render p) ++ render p, None)).
Proof.
  exists sshConfigBlock. split; intros p sb.
  - apply writeSSHConfig_block.
  - rewrite (writeSSHConfig_block sb p). cbn [fst].
    apply writeSSHConfig_block.
Qed.

(** ** The output of [tsh config] *)

Lemma Sprintf_header (addr : string) :
  Sprintf
    ("#" ++ LF ++
     "# Begin generated Teleport configuration for %s from `tsh config`"
     ++ LF ++ "#" ++ LF) [addr]
  = "#" ++ LF ++ "# Begin generated Teleport configuration for " ++ addr
    ++ " from `tsh config`" ++ LF ++ "#" ++ LF.
Proof. reflexivity. Qed.

Lemma Sprintf_footer :
  Sprintf (LF ++ "# End generated Teleport configuration" ++ LF) []
  = LF ++ "# End generated Teleport configuration" ++ LF.
Proof. reflexivity. Qed.

Section OnConfigClaims.

Variable ProxyClient : Type.
Variable RemoteCluster : Type.
Variable makeClient : CLIConf -> bool -> result Config.
Variable ConnectToProxy : Config -> result ProxyClient.
Variable RootClusterName : ProxyClient -> string * option error.
Variable GetLeafClusters : ProxyClient -> list RemoteCluster * option error.
Variable GetName : RemoteCluster -> string.
Variable FullProfilePath : string -> string.
Variable keypaths_KnownHostsPath : string -> string.
Variable keypaths_UserKeyPath : string -> string -> string -> string.
Variable keypaths_SSHCertPath : string -> string -> string -> string -> string.

(** The loop appends the blocks of the leaves in the order of the list. *)
Lemma writeLeafClusters_blocks
  (mk : string -> hostConfigParameters) (leafClusters : list RemoteCluster)
  (sb : string) :
  writeLeafClusters GetName sb leafClusters mk
  = (sb ++ joinAll (map (fun leaf => sshConfigBlock (mk (GetName leaf)))
                      leafClusters),
     None).
Proof.
  unfold writeLeafClusters. revert sb.
  induction leafClusters as [|leaf rest IH]; intros sb; cbn [forRange map joinAll].
  - now rewrite app_nil_r_s.
  - rewrite writeSSHConfig_block, IH, app_assoc_s. reflexivity.
Qed.

(** C6: when the client, the proxy connection and the two cluster queries
    succeed, [onConfig] prints one text: a blank line, the header comment
    naming the proxy address, the block of the root cluster, the blocks of
    the leaf clusters in the order they were returned, and the footer
    comment.  All blocks share the known-hosts path, the identity file and
    the certificate path derived from the root cluster's name. *)
Theorem C6_onConfig_output
  (cf : CLIConf) (tc : Config) (proxyHost proxyPort : string)
  (proxyClient : ProxyClient) (rootClusterName : string)
  (leafClusters : list RemoteCluster) (w : list event) :
  makeClient cf true = Ok tc ->
  Net.SplitHostPort (SSHProxyAddr tc) = Ok (proxyHost, proxyPort) ->
  ConnectToProxy tc = Ok proxyClient ->
  RootClusterName proxyClient = (rootClusterName, None) ->
  GetLeafClusters proxyClient = (leafClusters, None) ->
  let keysDir := FullProfilePath (KeysDir tc) in
  let params := fun clusterName : string =>
    {| ClusterName := clusterName;
       KnownHostsPath := keypaths_KnownHostsPath keysDir;
       IdentityFilePath :=
         keypaths_UserKeyPath keysDir proxyHost (Username tc);
       CertificateFilePath :=
         keypaths_SSHCertPath keysDir proxyHost (Username tc) rootClusterName;
       ProxyHost := proxyHost;
       ProxyPort := proxyPort;
       TSHPath := executablePath cf |} in
  onConfig makeClient ConnectToProxy RootClusterName GetLeafClusters GetName
    FullProfilePath keypaths_KnownHostsPath keypaths_UserKeyPath
    keypaths_SSHCertPath cf w
  = (None,
     (w ++ [ EvPrint
               (LF
                ++ ("#" ++ LF
                    ++ "# Begin generated Teleport configuration for "
                    ++ WebProxyAddr tc ++ " from `tsh config`" ++ LF
                    ++ "#" ++ LF)
                ++ sshConfigBlock (params rootClusterName)
                ++ joinAll (map (fun leaf => sshConfigBlock (params (GetName leaf)))
                              leafClusters)
                ++ (LF ++ "# End generated Teleport configuration" ++ LF));
             EvClose ])%list).
Proof.
  intros Hc Hs Hx Hr Hl keysDir params.
  unfold onConfig. rewrite Hc, Hs, Hx, Hr, Hl.
  change (trace_NewAggregate [None; None]) with (@None error).
  cbv iota beta zeta. fold keysDir.
  rewrite Sprintf_header, Sprintf_footer, writeSSHConfig_block.
  fold params. rewrite (writeLeafClusters_blocks params).
  unfold bind, emit, ret.
  rewrite <- List.app_assoc. cbn [List.app].
  do 3 f_equal. cbn [append]. rewrite !app_assoc_s. reflexivity.
Qed.

End OnConfigClaims.

Lemma C6_witness :
  Net.SplitHostPort (SSHProxyAddr aliceConfig) = Ok ("proxy.example.com", "3023")
  /\ onConfig aliceMakeClient aliceConnect aliceRoot aliceLeaves aliceLeafName
       aliceProfilePath aliceKnownHosts aliceUserKey aliceSSHCert fqdnConf []
     = (None,
        [ EvPrint
            (LF ++ "#" ++ LF
             ++ "# Begin generated Teleport configuration for proxy.example.com:443 from `tsh config`"
             ++ LF ++ "#" ++ LF
             ++ sshConfigBlock (aliceParams "root")
             ++ sshConfigBlock (aliceParams "leaf1")
             ++ sshConfigBlock (aliceParams "leaf2")
             ++ LF ++ "# End generated Teleport configuration" ++ LF);
          EvClose ]).
Proof.
  assert (Hs : Net.SplitHostPort (SSHProxyAddr aliceConfig)
               = Ok ("proxy.example.com", "3023")) by (vm_compute; reflexivity).
  split; [exact Hs |].
  pose proof (@C6_onConfig_output unit string aliceMakeClient aliceConnect
                aliceRoot aliceLeaves aliceLeafName aliceProfilePath
                aliceKnownHosts aliceUserKey aliceSSHCert
                fqdnConf aliceConfig "proxy.example.com" "3023" tt "root"
                ["leaf1"; "leaf2"] [] eq_refl Hs eq_refl eq_refl eq_refl) as H.
  vm_compute in H |- *. exact H.
Defined.


(** * Further properties *)

(** ** Suffix removal in [onConfigProxy] *)

Lemma HasSuffix_has_byte (c : ascii) (x s : string) :
  HasSuffix s (String c x) = true -> has_byte c s = true.
Proof.
  intros H. apply HasSuffix_iff in H as [p ->].
  rewrite has_byte_app, has_byte_cons, Ascii.eqb_refl.
  apply orb_true_iff. now right.
Qed.

Section ProxyExtras.

Variable GOOS : string.
Variable WindowsOS : string.
Variable childResult : Cmd -> option error.

(** The host handed to the SSH client is the target host with one of
    four tails removed: nothing, [.<proxyHost>], [.<siteName>], or
    [.<siteName>.<proxyHost>].  The front of the name is never touched. *)
Theorem strip_removes_known_tail
  (cf : CLIConf) (proxyHost proxyPort targetHost targetPort : string)
  (w : list event) :
  Net.SplitHostPort (Proxy cf) = Ok (proxyHost, proxyPort) ->
  Net.SplitHostPort (ConfigProxyTarget cf) = Ok (targetHost, targetPort) ->
  exists stripped : string,
    (targetHost = stripped \/
     targetHost = stripped ++ "." ++ proxyHost \/
     targetHost = stripped ++ "." ++ SiteName cf \/
     targetHost = stripped ++ "." ++ SiteName cf ++ "." ++ proxyHost) /\
    let child :=
      sshChild (getDefaultSSHPath GOOS WindowsOS)
        [ "-p"; proxyPort; proxyHost; "-s";
          "proxy:" ++ stripped ++ ":" ++ targetPort ++ "@" ++ SiteName cf ] in
    onConfigProxy GOOS WindowsOS childResult cf w
    = (childResult child, (w ++ [EvSpawn child])%list).
Proof.
  intros Hp Ht.
  exists (TrimSuffix (TrimSuffix targetHost ("." ++ proxyHost))
            ("." ++ SiteName cf)).
  split; [| exact (onConfigProxy_ok GOOS WindowsOS childResult cf w Hp Ht)].
  destruct (TrimSuffix_spec targetHost ("." ++ proxyHost))
    as [(x & Hx & Ex) | [_ Ex]]; rewrite Ex.
  - destruct (TrimSuffix_spec x ("." ++ SiteName cf))
      as [(y & Hy & Ey) | [_ Ey]]; rewrite Ey.
    + right; right; right. rewrite Hx, Hy, app_assoc_s. reflexivity.
    + right; left. exact Hx.
  - destruct (TrimSuffix_spec targetHost ("." ++ SiteName cf))
      as [(y & Hy & Ey) | [_ Ey]]; rewrite Ey.
    + right; right; left. exact Hy.
    + left. reflexivity.
Qed.

(** A target host without any dot reaches the SSH client unchanged,
    whatever the proxy host and the site name are. *)
Theorem bare_host_unchanged
  (cf : CLIConf) (proxyHost proxyPort targetHost targetPort : string)
  (w : list event) :
  Net.SplitHostPort (Proxy cf) = Ok (proxyHost, proxyPort) ->
  Net.SplitHostPort (ConfigProxyTarget cf) = Ok (targetHost, targetPort) ->
  has_byte "." targetHost = false ->
  let child :=
    sshChild (getDefaultSSHPath GOOS WindowsOS)
      [ "-p"; proxyPort; proxyHost; "-s";
        "proxy:" ++ targetHost ++ ":" ++ targetPort ++ "@" ++ SiteName cf ] in
  onConfigProxy GOOS WindowsOS childResult cf w
  = (childResult child, (w ++ [EvSpawn child])%list).
Proof.
  intros Hp Ht Hdot. cbv zeta.
  rewrite (onConfigProxy_ok GOOS WindowsOS childResult cf w Hp Ht). cbv zeta.
  assert (Hno : forall x, TrimSuffix targetHost ("." ++ x) = targetHost).
  { intros x. apply TrimSuffix_no.
    destruct (HasSuffix targetHost ("." ++ x)) eqn:E; [| reflexivity].
    apply HasSuffix_has_byte in E. congruence. }
  now rewrite !Hno.
Qed.

(** The proxy address is examined first: when it does not split, its own
    error is what [onConfigProxy] returns, also when the target address
    is malformed too; no child is spawned. *)
Theorem proxy_address_checked_first
  (cf : CLIConf) (e : error) (w : list event) :
  Net.SplitHostPort (Proxy cf) = Fail e ->
  onConfigProxy GOOS WindowsOS childResult cf w = (Some (TraceErr e), w)
  /\ exists why, e = AddrError why (Proxy cf).
Proof.
  intros H. destruct (SplitHostPort_fail _ H) as [why ->].
  split; [| now exists why].
  unfold onConfigProxy. now rewrite H.
Qed.

End ProxyExtras.

Lemma strip_removes_known_tail_witness :
  exists stripped : string,
    ("node1.main.proxy.example.com" = stripped \/
     "node1.main.proxy.example.com" = stripped ++ ".proxy.example.com" \/
     "node1.main.proxy.example.com" = stripped ++ ".main" \/
     "node1.main.proxy.example.com" = stripped ++ ".main.proxy.example.com") /\
    onConfigProxy "linux" "windows" exitsZero doublySuffixedConf []
    = (None,
       [EvSpawn (sshChild "/usr/bin/ssh"
                   ["-p"; "443"; "proxy.example.com"; "-s";
                    "proxy:" ++ stripped ++ ":3022@main"])]).
Proof.
  assert (Hp : Net.SplitHostPort (Proxy doublySuffixedConf)
               = Ok ("proxy.example.com", "443")) by (vm_compute; reflexivity).
  assert (Ht : Net.SplitHostPort (ConfigProxyTarget doublySuffixedConf)
               = Ok ("node1.main.proxy.example.com", "3022"))
    by (vm_compute; reflexivity).
  pose proof (strip_removes_known_tail "linux" "windows" exitsZero
                doublySuffixedConf [] Hp Ht) as H.
  vm_compute in H |- *. exact H.
Defined.

Lemma bare_host_unchanged_witness :
  has_byte "." "node1" = false /\
  onConfigProxy "linux" "windows" exitsZero bareHostConf []
  = (None,
     [EvSpawn (sshChild "/usr/bin/ssh"
                 ["-p"; "443"; "proxy.example.com"; "-s";
                  "proxy:node1:3022@main"])]).
Proof.
  assert (Hp : Net.SplitHostPort (Proxy bareHostConf)
               = Ok ("proxy.example.com", "443")) by (vm_compute; reflexivity).
  assert (Ht : Net.SplitHostPort (ConfigProxyTarget bareHostConf)
               = Ok ("node1", "3022")) by (vm_compute; reflexivity).
  assert (Hd : has_byte "." "node1" = false) by (vm_compute; reflexivity).
  split; [exact Hd |].
  pose proof (bare_host_unchanged "linux" "windows" exitsZero
                bareHostConf [] Hp Ht Hd) as H.
  vm_compute in H |- *. exact H.
Defined.

Lemma proxy_address_checked_first_witness :
  Net.SplitHostPort (ConfigProxyTarget bothBadConf)
  = Fail (AddrError "missing port in address" "no-port-here") /\
  onConfigProxy "linux" "windows" exitsZero bothBadConf []
  = (Some (TraceErr (AddrError "too many colons in address" "a:b:c")), []).
Proof.
  assert (Hp : Net.SplitHostPort (Proxy bothBadConf)
               = Fail (AddrError "too many colons in address" "a:b:c"))
    by (vm_compute; reflexivity).
  split; [vm_compute; reflexivity |].
  exact (proj1 (proxy_address_checked_first "linux" "windows" exitsZero
                  bothBadConf [] Hp)).
Defined.


(** ** What a successful split returns *)

Lemma SplitHostPort_colon_host (h p : string) :
  has_byte ":" h = true -> has_byte "[" h = false -> has_byte ":" p = false ->
  Net.SplitHostPort (h ++ String ":" p)
  = Fail (AddrError "too many colons in address" (h ++ String ":" p)).
Proof.
  intros Hc Ho Pc. unfold Net.SplitHostPort. cbv zeta.
  rewrite (LastIndex_app _ h p Pc).
  pose proof (len_nonneg h) as Hh.
  destruct (Z.ltb_spec (len h) 0) as [|_]; [lia|].
  assert (Hb : byte_is (h ++ String ":" p) 0 "[" = false).
  { destruct h as [|x h]; [discriminate Hc|].
    rewrite has_byte_cons in Ho. apply orb_false_elim in Ho as [Hx _].
    exact Hx. }
  rewrite Hb, slice_to_app.
  destruct (Z.leb_spec 0 (IndexByteString h ":")) as [_|Hneg]; [reflexivity|].
  apply Index_none in Hneg. congruence.
Qed.

(** The parts of a successful split are clean: no square bracket is left
    in the host or in the port, the port holds no colon, and the host
    holds a colon only when the address was in the bracketed form. *)
Theorem split_parts_are_clean (s host port : string) :
  Net.SplitHostPort s = Ok (host, port) ->
  has_byte "[" host = false /\ has_byte "]" host = false /\
  plain port = true /\
  (has_byte ":" host = false \/ byte_is s 0 "[" = true).
Proof.
  intros H. apply SplitHostPort_inv in H
    as (Pc & Po & Pcl & [(_ & Hc & Ho & Hcl) | (-> & Ho & Hcl)]).
  - repeat split; try assumption; [| now left].
    unfold plain. now rewrite Pc, Po, Pcl.
  - repeat split; try assumption; [| now right].
    unfold plain. now rewrite Pc, Po, Pcl.
Qed.

(** Joining the parts of a split with a colon and splitting again gives
    the same parts, provided the host holds no colon.  This is what
    happens to [<ProxyHost>:<ProxyPort>], which [onConfig] writes into the
    [ProxyCommand] and [onConfigProxy] splits again. *)
Theorem split_rejoin_roundtrip (s host port : string) :
  Net.SplitHostPort s = Ok (host, port) ->
  has_byte ":" host = false ->
  Net.SplitHostPort (host ++ ":" ++ port) = Ok (host, port).
Proof.
  intros H Hc. apply SplitHostPort_inv in H
    as (Pc & Po & Pcl & [(_ & _ & Ho & Hcl) | (_ & Ho & Hcl)]);
    now apply SplitHostPort_plain.
Qed.

Section RejoinedProxy.

Variable GOOS : string.
Variable WindowsOS : string.
Variable childResult : Cmd -> option error.

(** When the host of a split holds a colon (an IPv6 literal, written in
    brackets), the re-joined [<host>:<port>] is no valid proxy address
    any more: [onConfigProxy] refuses it for its too many colons and
    spawns nothing. *)
Theorem rejoined_ipv6_proxy_rejected
  (addr host port : string) (cf : CLIConf) (w : list event) :
  Net.SplitHostPort addr = Ok (host, port) ->
  has_byte ":" host = true ->
  Proxy cf = host ++ ":" ++ port ->
  onConfigProxy GOOS WindowsOS childResult cf w
  = (Some (TraceErr (AddrError "too many colons in address" (Proxy cf))), w).
Proof.
  intros H Hc Hcf. apply SplitHostPort_inv in H
    as (Pc & _ & _ & [(_ & Hc' & _) | (_ & Ho & _)]); [congruence|].
  change (host ++ ":" ++ port) with (host ++ String ":" port) in Hcf.
  unfold onConfigProxy. rewrite Hcf.
  now rewrite (SplitHostPort_colon_host host port Hc Ho Pc).
Qed.

End RejoinedProxy.

Lemma split_parts_are_clean_witness :
  Net.SplitHostPort "[::1]:3023" = Ok ("::1", "3023") /\
  has_byte "[" "::1" = false /\ has_byte "]" "::1" = false /\
  plain "3023" = true /\
  (has_byte ":" "::1" = false \/ byte_is "[::1]:3023" 0 "[" = true).
Proof.
  assert (H : Net.SplitHostPort "[::1]:3023" = Ok ("::1", "3023"))
    by (vm_compute; reflexivity).
  split; [exact H | exact (split_parts_are_clean "[::1]:3023" H)].
Defined.

Lemma split_rejoin_roundtrip_witness :
  Net.SplitHostPort "proxy.example.com:3023" = Ok ("proxy.example.com", "3023")
  /\ has_byte ":" "proxy.example.com" = false
  /\ Net.SplitHostPort ("proxy.example.com" ++ ":" ++ "3023")
     = Ok ("proxy.example.com", "3023").
Proof.
  assert (H : Net.SplitHostPort "proxy.example.com:3023"
              = Ok ("proxy.example.com", "3023")) by (vm_compute; reflexivity).
  assert (Hc : has_byte ":" "proxy.example.com" = false)
    by (vm_compute; reflexivity).
  split; [exact H | split; [exact Hc |]].
  exact (split_rejoin_roundtrip "proxy.example.com:3023" H Hc).
Defined.

Lemma rejoined_ipv6_proxy_rejected_witness :
  Net.SplitHostPort "[::1]:3023" = Ok ("::1", "3023") /\
  has_byte ":" "::1" = true /\
  onConfigProxy "linux" "windows" exitsZero rejoinedIPv6Conf []
  = (Some (TraceErr (AddrError "too many colons in address" "::1:3023")), []).
Proof.
  assert (H : Net.SplitHostPort "[::1]:3023" = Ok ("::1", "3023"))
    by (vm_compute; reflexivity).
  assert (Hc : has_byte ":" "::1" = true) by (vm_compute; reflexivity).
  split; [exact H | split; [exact Hc |]].
  exact (rejoined_ipv6_proxy_rejected "linux" "windows" exitsZero
           "[::1]:3023" rejoinedIPv6Conf [] H Hc eq_refl).
Defined.


(** ** Runs of [tsh config] *)

Lemma unlines_app (a b : list string) :
  unlines (a ++ b) = unlines a ++ unlines b.
Proof.
  induction a as [|l a IH]; cbn [unlines List.app]; [reflexivity|].
  now rewrite IH, !app_assoc_s.
Qed.

Lemma joinAll_unlines (A : Type) (f : A -> list string) (xs : list A) :
  joinAll (map (fun x => unlines (f x)) xs) = unlines (concat (map f xs)).
Proof.
  induction xs as [|x xs IH]; cbn [map joinAll concat]; [reflexivity|].
  now rewrite unlines_app, IH.
Qed.

Lemma forallb_concat (A B : Type) (ok : B -> bool) (f : A -> list B)
  (xs : list A) :
  forallb (fun x => forallb ok (f x)) xs = true ->
  forallb ok (concat (map f xs)) = true.
Proof.
  induction xs as [|x xs IH]; cbn [map concat forallb]; [reflexivity|].
  intros H. apply andb_prop in H as [Hx Hxs].
  rewrite forallb_app, Hx. now apply IH.
Qed.

Lemma forallb_through_map (A B : Type) (f : A -> B) (ok : B -> bool)
  (xs : list A) :
  forallb ok (map f xs) = forallb (fun x => ok (f x)) xs.
Proof.
  induction xs as [|x xs IH]; cbn [map forallb]; [reflexivity|].
  now rewrite IH.
Qed.

Lemma hostLines_of_block (p : hostConfigParameters) :
  filter isHostLine (sshConfigLines p)
  = clusterHostLines (ProxyHost p) (ClusterName p).
Proof. reflexivity. Qed.

Lemma trace_NewAggregate_some (rootErr leafErr : option error) :
  rootErr <> None \/ leafErr <> None ->
  trace_NewAggregate [rootErr; leafErr]
  = Some (Aggregate (nonNil [rootErr; leafErr])).
Proof.
  destruct rootErr, leafErr; intros [H | H]; try reflexivity; now elim H.
Qed.

Section OnConfigRuns.

Variable ProxyClient : Type.
Variable RemoteCluster : Type.
Variable makeClient : CLIConf -> bool -> result Config.
Variable ConnectToProxy : Config -> result ProxyClient.
Variable RootClusterName : ProxyClient -> string * option error.
Variable GetLeafClusters : ProxyClient -> list RemoteCluster * option error.
Variable GetName : RemoteCluster -> string.
Variable FullProfilePath : string -> string.
Variable keypaths_KnownHostsPath : string -> string.
Variable keypaths_UserKeyPath : string -> string -> string -> string.
Variable keypaths_SSHCertPath : string -> string -> string -> string -> string.

(** The run in which everything succeeds. *)
Lemma onConfig_ok
  (cf : CLIConf) (tc : Config) (proxyHost proxyPort : string)
  (proxyClient : ProxyClient) (rootClusterName : string)
  (leafClusters : list RemoteCluster) (w : list event) :
  makeClient cf true = Ok tc ->
  Net.SplitHostPort (SSHProxyAddr tc) = Ok (proxyHost, proxyPort) ->
  ConnectToProxy tc = Ok proxyClient ->
  RootClusterName proxyClient = (rootClusterName, None) ->
  GetLeafClusters proxyClient = (leafClusters, None) ->
  onConfig makeClient ConnectToProxy RootClusterName GetLeafClusters GetName
    FullProfilePath keypaths_KnownHostsPath keypaths_UserKeyPath
    keypaths_SSHCertPath cf w
  = (None,
     (w ++ [ EvPrint
               (unlines
                  (configLines (WebProxyAddr tc)
                     (map (fun name =>
                             sshConfigLines
                               (paramsOf FullProfilePath keypaths_KnownHostsPath
                                  keypaths_UserKeyPath keypaths_SSHCertPath cf tc proxyHost
                                  proxyPort rootClusterName name))
                        (rootClusterName :: map GetName leafClusters))));
             EvClose ])%list).
Proof.
  intros Hc Hs Hx Hr Hl.
  unfold onConfig. rewrite Hc, Hs, Hx, Hr, Hl.
  change (trace_NewAggregate [None; None]) with (@None error).
  cbv iota beta zeta.
  rewrite Sprintf_header, Sprintf_footer, writeSSHConfig_block.
  unfold paramsOf, clusterParams.
  rewrite (writeLeafClusters_blocks GetName
             (paramsOf FullProfilePath keypaths_KnownHostsPath
                keypaths_UserKeyPath keypaths_SSHCertPath cf tc proxyHost
                proxyPort rootClusterName)).
  unfold bind, emit, ret.
  rewrite <- List.app_assoc. cbn [List.app].
  do 3 f_equal.
  unfold configLines, configHeader, configFooter. rewrite !unlines_app.
  cbn [map concat]. rewrite unlines_app, map_map.
  rewrite <- (joinAll_unlines
                (fun leaf => sshConfigLines
                               (paramsOf FullProfilePath keypaths_KnownHostsPath
                                  keypaths_UserKeyPath keypaths_SSHCertPath cf tc proxyHost
                                  proxyPort rootClusterName (GetName leaf)))).
  unfold sshConfigBlock. cbn [unlines append]. rewrite !app_assoc_s.
  cbn [append]. reflexivity.
Qed.

(** The run in which a cluster query fails. *)
Lemma onConfig_query_failed
  (cf : CLIConf) (tc : Config) (proxyHost proxyPort : string)
  (proxyClient : ProxyClient) (rootClusterName : string)
  (leafClusters : list RemoteCluster) (rootErr leafErr : option error)
  (w : list event) :
  makeClient cf true = Ok tc ->
  Net.SplitHostPort (SSHProxyAddr tc) = Ok (proxyHost, proxyPort) ->
  ConnectToProxy tc = Ok proxyClient ->
  RootClusterName proxyClient = (rootClusterName, rootErr) ->
  GetLeafClusters proxyClient = (leafClusters, leafErr) ->
  rootErr <> None \/ leafErr <> None ->
  onConfig makeClient ConnectToProxy RootClusterName GetLeafClusters GetName
    FullProfilePath keypaths_KnownHostsPath keypaths_UserKeyPath
    keypaths_SSHCertPath cf w
  = (Some (TraceErr (Aggregate (nonNil [rootErr; leafErr]))),
     (w ++ [EvClose])%list).
Proof.
  intros Hc Hs Hx Hr Hl He.
  unfold onConfig. rewrite Hc, Hs, Hx, Hr, Hl.
  rewrite (trace_NewAggregate_some He). reflexivity.
Qed.

(** [onConfig] prints only when it succeeds.  A run either returns no
    error after printing one text and closing the proxy connection, or
    returns an error having printed nothing: it then has done nothing at
    all, or has only closed the connection it had opened. *)
Theorem onConfig_prints_only_on_success (cf : CLIConf) (w : list event) :
  let r := onConfig makeClient ConnectToProxy RootClusterName GetLeafClusters GetName
    FullProfilePath keypaths_KnownHostsPath keypaths_UserKeyPath
    keypaths_SSHCertPath cf w in
  (fst r = None /\ exists text, snd r = (w ++ [EvPrint text; EvClose])%list)
  \/ (exists e, fst r = Some e
                /\ (snd r = w \/ snd r = (w ++ [EvClose])%list)).
Proof.
  cbv zeta.
  destruct (makeClient cf true) as [tc|e] eqn:Hc.
  2:{ right. exists (trace_Wrap e). unfold onConfig. rewrite Hc. auto. }
  destruct (Net.SplitHostPort (SSHProxyAddr tc)) as [[h p]|e] eqn:Hs.
  2:{ right. exists (trace_Wrap e). unfold onConfig. rewrite Hc, Hs. auto. }
  destruct (ConnectToProxy tc) as [pc|e] eqn:Hx.
  2:{ right. exists (trace_Wrap e). unfold onConfig. rewrite Hc, Hs, Hx. auto. }
  destruct (RootClusterName pc) as [root rootErr] eqn:Hr.
  destruct (GetLeafClusters pc) as [leaves leafErr] eqn:Hl.
  destruct rootErr as [e1|]; [| destruct leafErr as [e2|]].
  - assert (He : Some e1 <> None \/ leafErr <> None) by (left; discriminate).
    right. eexists. rewrite (onConfig_query_failed w Hc Hs Hx Hr Hl He).
    cbn [fst snd]. split; [reflexivity | right; reflexivity].
  - assert (He : @None error <> None \/ Some e2 <> None)
      by (right; discriminate).
    right. eexists. rewrite (onConfig_query_failed w Hc Hs Hx Hr Hl He).
    cbn [fst snd]. split; [reflexivity | right; reflexivity].
  - left. rewrite (onConfig_ok w Hc Hs Hx Hr Hl). cbn [fst snd].
    split; [reflexivity | eexists; reflexivity].
Qed.

(** Once the proxy connection is open it is closed before [onConfig]
    returns, as the last thing the run does, whatever the cluster
    queries answer; the only other thing a run may do is print. *)
Theorem onConfig_closes_connection
  (cf : CLIConf) (tc : Config) (proxyHost proxyPort : string)
  (proxyClient : ProxyClient) (w : list event) :
  makeClient cf true = Ok tc ->
  Net.SplitHostPort (SSHProxyAddr tc) = Ok (proxyHost, proxyPort) ->
  ConnectToProxy tc = Ok proxyClient ->
  exists before : list event,
    snd (onConfig makeClient ConnectToProxy RootClusterName GetLeafClusters GetName
    FullProfilePath keypaths_KnownHostsPath keypaths_UserKeyPath
    keypaths_SSHCertPath cf w) = (w ++ before ++ [EvClose])%list
    /\ (before = [] \/ exists text, before = [EvPrint text]).
Proof.
  intros Hc Hs Hx.
  destruct (RootClusterName proxyClient) as [root rootErr] eqn:Hr.
  destruct (GetLeafClusters proxyClient) as [leaves leafErr] eqn:Hl.
  destruct rootErr as [e1|]; [| destruct leafErr as [e2|]].
  - assert (He : Some e1 <> None \/ leafErr <> None) by (left; discriminate).
    exists []. rewrite (onConfig_query_failed w Hc Hs Hx Hr Hl He).
    cbn [snd]. split; [reflexivity | left; reflexivity].
  - assert (He : @None error <> None \/ Some e2 <> None)
      by (right; discriminate).
    exists []. rewrite (onConfig_query_failed w Hc Hs Hx Hr Hl He).
    cbn [snd]. split; [reflexivity | left; reflexivity].
  - rewrite (onConfig_ok w Hc Hs Hx Hr Hl). cbn [snd].
    eexists [EvPrint _]. split; [reflexivity | right; eexists; reflexivity].
Qed.

(** Both cluster queries are made before either answer is examined.  When
    one of them fails, [onConfig] prints nothing, closes the connection
    and returns the aggregate of the errors, the root cluster's first;
    the answers of a query that succeeded are not used. *)
Theorem onConfig_query_errors_aggregated
  (cf : CLIConf) (tc : Config) (proxyHost proxyPort : string)
  (proxyClient : ProxyClient) (rootClusterName : string)
  (leafClusters : list RemoteCluster) (rootErr leafErr : option error)
  (w : list event) :
  makeClient cf true = Ok tc ->
  Net.SplitHostPort (SSHProxyAddr tc) = Ok (proxyHost, proxyPort) ->
  ConnectToProxy tc = Ok proxyClient ->
  RootClusterName proxyClient = (rootClusterName, rootErr) ->
  GetLeafClusters proxyClient = (leafClusters, leafErr) ->
  rootErr <> None \/ leafErr <> None ->
  exists errs : list error,
    onConfig makeClient ConnectToProxy RootClusterName GetLeafClusters GetName
    FullProfilePath keypaths_KnownHostsPath keypaths_UserKeyPath
    keypaths_SSHCertPath cf w = (Some (TraceErr (Aggregate errs)), (w ++ [EvClose])%list)
    /\ errs <> []
    /\ (forall e, In e errs <-> rootErr = Some e \/ leafErr = Some e).
Proof.
  intros Hc Hs Hx Hr Hl He.
  exists (nonNil [rootErr; leafErr]).
  split; [exact (onConfig_query_failed w Hc Hs Hx Hr Hl He) |].
  destruct rootErr as [e1|], leafErr as [e2|]; cbn [nonNil In];
    (split; [try discriminate; destruct He as [He | He]; now elim He |]);
    intros e; split; intros H;
    repeat match goal with
           | H : _ \/ _ |- _ => destruct H
           | H : Some _ = Some _ |- _ => injection H as H
           | H : False |- _ => destruct H
           | H : None = Some _ |- _ => discriminate H
           end; subst; auto.
Qed.

Lemma configLines_split (addr : string) (ps : list hostConfigParameters) :
  has_byte "010" addr = false ->
  forallb singleLine ps = true ->
  splitLines (unlines (configLines addr (map sshConfigLines ps)))
  = configLines addr (map sshConfigLines ps).
Proof.
  intros Ha Hps. apply splitLines_unlines.
  unfold configLines. rewrite !forallb_app.
  apply andb_true_intro; split; [| apply andb_true_intro; split].
  - unfold configHeader. cbn [forallb].
    repeat (apply andb_true_intro; split); try reflexivity.
    apply negb_true_iff.
    repeat (apply has_byte_app_false; try assumption; try reflexivity).
  - apply forallb_concat.
    induction ps as [|p ps IH]; [reflexivity|].
    cbn [forallb] in Hps |- *. apply andb_prop in Hps as [Hp Hps].
    rewrite (sshConfigLines_single p Hp). now apply IH.
  - reflexivity.
Qed.

Lemma configLines_hosts (addr : string) (ps : list hostConfigParameters) :
  filter isHostLine (configLines addr (map sshConfigLines ps))
  = flat_map (fun p => clusterHostLines (ProxyHost p) (ClusterName p)) ps.
Proof.
  unfold configLines. rewrite !filter_app.
  change (filter isHostLine (configHeader addr)) with (@nil string).
  change (filter isHostLine configFooter) with (@nil string).
  rewrite List.app_nil_r. cbn [List.app].
  induction ps as [|p ps IH]; [reflexivity|].
  cbn [map concat flat_map]. now rewrite filter_app, hostLines_of_block, IH.
Qed.

(** The printed text, line by line, when no name, path or address holds
    a line feed: a blank line and the three header lines, the eleven
    lines of each block, root cluster first and leaves in the order they
    were returned, then a blank line and the footer.  Its [Host] lines
    are the two of each cluster, in that same order, all for the same
    proxy host. *)
Theorem onConfig_lines_and_hosts
  (cf : CLIConf) (tc : Config) (proxyHost proxyPort : string)
  (proxyClient : ProxyClient) (rootClusterName : string)
  (leafClusters : list RemoteCluster) (w : list event) :
  makeClient cf true = Ok tc ->
  Net.SplitHostPort (SSHProxyAddr tc) = Ok (proxyHost, proxyPort) ->
  ConnectToProxy tc = Ok proxyClient ->
  RootClusterName proxyClient = (rootClusterName, None) ->
  GetLeafClusters proxyClient = (leafClusters, None) ->
  has_byte "010" (WebProxyAddr tc) = false ->
  forallb (fun name => singleLine (paramsOf FullProfilePath keypaths_KnownHostsPath keypaths_UserKeyPath
         keypaths_SSHCertPath cf tc proxyHost proxyPort rootClusterName name))
    (rootClusterName :: map GetName leafClusters) = true ->
  exists text : string,
    onConfig makeClient ConnectToProxy RootClusterName GetLeafClusters GetName
    FullProfilePath keypaths_KnownHostsPath keypaths_UserKeyPath
    keypaths_SSHCertPath cf w = (None, (w ++ [EvPrint text; EvClose])%list)
    /\ splitLines text
       = configLines (WebProxyAddr tc)
           (map (fun name => sshConfigLines (paramsOf FullProfilePath keypaths_KnownHostsPath keypaths_UserKeyPath
         keypaths_SSHCertPath cf tc proxyHost proxyPort rootClusterName name))
              (rootClusterName :: map GetName leafClusters))
    /\ hostLines text
       = flat_map (clusterHostLines proxyHost)
           (rootClusterName :: map GetName leafClusters).
Proof.
  intros Hc Hs Hx Hr Hl Ha Hn.
  eexists. split; [exact (onConfig_ok w Hc Hs Hx Hr Hl) |].
  set (names := rootClusterName :: map GetName leafClusters) in *.
  set (mk := (paramsOf FullProfilePath keypaths_KnownHostsPath keypaths_UserKeyPath
         keypaths_SSHCertPath cf tc proxyHost proxyPort rootClusterName)) in *.
  assert (Hmap : map (fun name => sshConfigLines (mk name)) names
                 = map sshConfigLines (map mk names))
    by (now rewrite map_map).
  assert (Hsplit : splitLines
                     (unlines (configLines (WebProxyAddr tc)
                                 (map sshConfigLines (map mk names))))
                   = configLines (WebProxyAddr tc)
                       (map sshConfigLines (map mk names))).
  { apply configLines_split; [exact Ha |]. now rewrite forallb_through_map. }
  rewrite Hmap. split; [exact Hsplit |].
  unfold hostLines. rewrite Hsplit, configLines_hosts.
  clear. induction names as [|n names IH]; [reflexivity|].
  cbn [map flat_map]. now rewrite IH.
Qed.

End OnConfigRuns.

Lemma onConfig_closes_connection_witness :
  exists before : list event,
    snd (onConfig aliceMakeClient aliceConnect aliceRootFails aliceLeaves
           aliceLeafName aliceProfilePath aliceKnownHosts aliceUserKey
           aliceSSHCert fqdnConf [])
    = (before ++ [EvClose])%list
    /\ (before = [] \/ exists text, before = [EvPrint text]).
Proof.
  assert (Hs : Net.SplitHostPort (SSHProxyAddr aliceConfig)
               = Ok ("proxy.example.com", "3023")) by (vm_compute; reflexivity).
  pose proof (@onConfig_closes_connection unit string aliceMakeClient
                aliceConnect aliceRootFails aliceLeaves aliceLeafName
                aliceProfilePath aliceKnownHosts aliceUserKey aliceSSHCert
                fqdnConf aliceConfig "proxy.example.com" "3023" tt []
                eq_refl Hs eq_refl) as H.
  vm_compute in H |- *. exact H.
Defined.

Lemma onConfig_query_errors_aggregated_witness :
  exists errs : list error,
    onConfig aliceMakeClient aliceConnect aliceRootFails aliceLeaves
      aliceLeafName aliceProfilePath aliceKnownHosts aliceUserKey
      aliceSSHCert fqdnConf []
    = (Some (TraceErr (Aggregate errs)), [EvClose])
    /\ errs <> []
    /\ (forall e, In e errs <->
                  Some (External "root cluster unavailable") = Some e
                  \/ None = Some e).
Proof.
  assert (Hs : Net.SplitHostPort (SSHProxyAddr aliceConfig)
               = Ok ("proxy.example.com", "3023")) by (vm_compute; reflexivity).
  assert (He : Some (External "root cluster unavailable") <> None
               \/ @None error <> None) by (left; discriminate).
  pose proof (@onConfig_query_errors_aggregated unit string aliceMakeClient
                aliceConnect aliceRootFails aliceLeaves aliceLeafName
                aliceProfilePath aliceKnownHosts aliceUserKey aliceSSHCert
                fqdnConf aliceConfig "proxy.example.com" "3023" tt ""
                ["leaf1"; "leaf2"] _ _ [] eq_refl Hs eq_refl eq_refl eq_refl
                He) as H.
  vm_compute in H |- *. exact H.
Defined.

Lemma onConfig_lines_and_hosts_witness :
  has_byte "010" (WebProxyAddr aliceConfig) = false /\
  exists text : string,
    onConfig aliceMakeClient aliceConnect aliceRoot aliceLeaves aliceLeafName
      aliceProfilePath aliceKnownHosts aliceUserKey aliceSSHCert fqdnConf []
    = (None, [EvPrint text; EvClose])
    /\ splitLines text
       = configLines "proxy.example.com:443"
           (map (fun name => sshConfigLines (aliceParams name))
              ["root"; "leaf1"; "leaf2"])
    /\ hostLines text
       = [ "Host *.root proxy.example.com";
           "Host *.root !proxy.example.com";
           "Host *.leaf1 proxy.example.com";
           "Host *.leaf1 !proxy.example.com";
           "Host *.leaf2 proxy.example.com";
           "Host *.leaf2 !proxy.example.com" ].
Proof.
  assert (Hs : Net.SplitHostPort (SSHProxyAddr aliceConfig)
               = Ok ("proxy.example.com", "3023")) by (vm_compute; reflexivity).
  assert (Ha : has_byte "010" (WebProxyAddr aliceConfig) = false)
    by (vm_compute; reflexivity).
  assert (Hn : forallb
                 (fun name =>
                    singleLine
                      (paramsOf aliceProfilePath aliceKnownHosts aliceUserKey
                         aliceSSHCert fqdnConf aliceConfig "proxy.example.com"
                         "3023" "root" name))
                 ("root" :: map aliceLeafName ["leaf1"; "leaf2"]) = true)
    by (vm_compute; reflexivity).
  split; [exact Ha |].
  pose proof (@onConfig_lines_and_hosts unit string aliceMakeClient
                aliceConnect aliceRoot aliceLeaves aliceLeafName
                aliceProfilePath aliceKnownHosts aliceUserKey aliceSSHCert
                fqdnConf aliceConfig "proxy.example.com" "3023" tt "root"
                ["leaf1"; "leaf2"] [] eq_refl Hs eq_refl eq_refl eq_refl
                Ha Hn) as H.
  vm_compute in H |- *. exact H.
Defined.


(** ** Node names under the generated [Host] patterns *)

Lemma count_byte_app (c : ascii) (a b : string) :
  count_byte c (a ++ b) = (count_byte c a + count_byte c b)%nat.
Proof.
  induction a as [|x a IH]; cbn [append count_byte]; [reflexivity|].
  rewrite IH. lia.
Qed.

Lemma count_byte_none (c : ascii) (s : string) :
  has_byte c s = false -> count_byte c s = 0%nat.
Proof.
  induction s as [|x s IH]; cbn [has_byte count_byte]; [reflexivity|].
  intros H. apply orb_false_elim in H as [Hx Hs]. now rewrite Hx, (IH Hs).
Qed.

Lemma count_byte_cons_same (c : ascii) (s : string) :
  count_byte c (String c s) = S (count_byte c s).
Proof. cbn [count_byte]. now rewrite Ascii.eqb_refl. Qed.

Section GeneratedHosts.

Variable GOOS : string.
Variable WindowsOS : string.
Variable childResult : Cmd -> option error.

(** A host [<name>.<siteName>], as matched by the generated pattern
    [*.<ClusterName>], reaches the SSH client as [<name>] when it does
    not also end in [.<proxyHost>]. *)
Theorem node_of_site_resolved
  (cf : CLIConf) (proxyHost proxyPort name targetPort : string)
  (w : list event) :
  Net.SplitHostPort (Proxy cf) = Ok (proxyHost, proxyPort) ->
  Net.SplitHostPort (ConfigProxyTarget cf)
  = Ok (name ++ "." ++ SiteName cf, targetPort) ->
  HasSuffix (name ++ "." ++ SiteName cf) ("." ++ proxyHost) = false ->
  let child :=
    sshChild (getDefaultSSHPath GOOS WindowsOS)
      [ "-p"; proxyPort; proxyHost; "-s";
        "proxy:" ++ name ++ ":" ++ targetPort ++ "@" ++ SiteName cf ] in
  onConfigProxy GOOS WindowsOS childResult cf w
  = (childResult child, (w ++ [EvSpawn child])%list).
Proof.
  intros Hp Ht Hno. cbv zeta.
  rewrite (onConfigProxy_ok GOOS WindowsOS childResult cf w Hp Ht). cbv zeta.
  now rewrite (TrimSuffix_no _ _ Hno), TrimSuffix_app.
Qed.

(** When the cluster is named like the proxy host, both removals look
    for the same suffix, yet [<name>.<proxyHost>] loses it only once:
    the host reaches the SSH client as [<name>], as long as [<name>]
    itself does not end in [.<proxyHost>]. *)
Theorem node_of_proxy_named_cluster_resolved
  (cf : CLIConf) (proxyHost proxyPort name targetPort : string)
  (w : list event) :
  Net.SplitHostPort (Proxy cf) = Ok (proxyHost, proxyPort) ->
  Net.SplitHostPort (ConfigProxyTarget cf)
  = Ok (name ++ "." ++ proxyHost, targetPort) ->
  SiteName cf = proxyHost ->
  HasSuffix name ("." ++ proxyHost) = false ->
  let child :=
    sshChild (getDefaultSSHPath GOOS WindowsOS)
      [ "-p"; proxyPort; proxyHost; "-s";
        "proxy:" ++ name ++ ":" ++ targetPort ++ "@" ++ proxyHost ] in
  onConfigProxy GOOS WindowsOS childResult cf w
  = (childResult child, (w ++ [EvSpawn child])%list).
Proof.
  intros Hp Ht Hs Hno. cbv zeta.
  rewrite (onConfigProxy_ok GOOS WindowsOS childResult cf w Hp Ht). cbv zeta.
  now rewrite Hs, TrimSuffix_app, (TrimSuffix_no _ _ Hno).
Qed.

(** When the cluster name is a subdomain [<sub>.<proxyHost>] of the proxy
    host, the first removal takes [.<proxyHost>] off the host
    [<name>.<sub>.<proxyHost>] and the second one no longer finds the
    cluster name: a node name without dot reaches the SSH client as
    [<name>.<sub>], not as [<name>]. *)
Theorem node_of_subdomain_cluster_keeps_label
  (cf : CLIConf) (proxyHost proxyPort name sub targetPort : string)
  (w : list event) :
  Net.SplitHostPort (Proxy cf) = Ok (proxyHost, proxyPort) ->
  Net.SplitHostPort (ConfigProxyTarget cf)
  = Ok (name ++ "." ++ sub ++ "." ++ proxyHost, targetPort) ->
  SiteName cf = sub ++ "." ++ proxyHost ->
  has_byte "." name = false ->
  let child :=
    sshChild (getDefaultSSHPath GOOS WindowsOS)
      [ "-p"; proxyPort; proxyHost; "-s";
        "proxy:" ++ (name ++ "." ++ sub) ++ ":" ++ targetPort ++ "@"
          ++ sub ++ "." ++ proxyHost ] in
  onConfigProxy GOOS WindowsOS childResult cf w
  = (childResult child, (w ++ [EvSpawn child])%list).
Proof.
  intros Hp Ht Hs Hdot. cbv zeta.
  rewrite (onConfigProxy_ok GOOS WindowsOS childResult cf w Hp Ht). cbv zeta.
  rewrite Hs.
  replace (name ++ "." ++ sub ++ "." ++ proxyHost)
    with ((name ++ "." ++ sub) ++ "." ++ proxyHost)
    by (now rewrite app_assoc_s).
  rewrite TrimSuffix_app.
  assert (Hno : HasSuffix (name ++ "." ++ sub) ("." ++ sub ++ "." ++ proxyHost)
                = false).
  { destruct (HasSuffix (name ++ "." ++ sub) ("." ++ sub ++ "." ++ proxyHost))
      eqn:E; [| reflexivity].
    apply HasSuffix_iff in E as [q E].
    apply (f_equal (count_byte ".")) in E.
    cbn [append] in E.
    rewrite !count_byte_app, !count_byte_cons_same, !count_byte_app,
      ?count_byte_cons_same, (count_byte_none _ _ Hdot) in E.
    lia. }
  now rewrite (TrimSuffix_no _ _ Hno).
Qed.

End GeneratedHosts.

Lemma node_of_site_resolved_witness :
  HasSuffix "node1.leaf" ".proxy.example.com" = false /\
  onConfigProxy "linux" "windows" exitsZero leafNodeConf []
  = (None,
     [EvSpawn (sshChild "/usr/bin/ssh"
                 ["-p"; "3023"; "proxy.example.com"; "-s";
                  "proxy:node1:3022@leaf"])]).
Proof.
  assert (Hp : Net.SplitHostPort (Proxy leafNodeConf)
               = Ok ("proxy.example.com", "3023")) by (vm_compute; reflexivity).
  assert (Ht : Net.SplitHostPort (ConfigProxyTarget leafNodeConf)
               = Ok ("node1" ++ "." ++ SiteName leafNodeConf, "3022"))
    by (vm_compute; reflexivity).
  assert (Hn : HasSuffix ("node1" ++ "." ++ SiteName leafNodeConf)
                 ("." ++ "proxy.example.com") = false)
    by (vm_compute; reflexivity).
  split; [vm_compute; reflexivity |].
  pose proof (node_of_site_resolved "linux" "windows" exitsZero leafNodeConf
                "node1" [] Hp Ht Hn) as H.
  vm_compute in H |- *. exact H.
Defined.

Lemma node_of_proxy_named_cluster_resolved_witness :
  HasSuffix "node1" ".proxy.example.com" = false /\
  onConfigProxy "linux" "windows" exitsZero rootNodeConf []
  = (None,
     [EvSpawn (sshChild "/usr/bin/ssh"
                 ["-p"; "3023"; "proxy.example.com"; "-s";
                  "proxy:node1:3022@proxy.example.com"])]).
Proof.
  assert (Hp : Net.SplitHostPort (Proxy rootNodeConf)
               = Ok ("proxy.example.com", "3023")) by (vm_compute; reflexivity).
  assert (Ht : Net.SplitHostPort (ConfigProxyTarget rootNodeConf)
               = Ok ("node1" ++ "." ++ "proxy.example.com", "3022"))
    by (vm_compute; reflexivity).
  assert (Hn : HasSuffix "node1" ("." ++ "proxy.example.com") = false)
    by (vm_compute; reflexivity).
  split; [vm_compute; reflexivity |].
  pose proof (node_of_proxy_named_cluster_resolved "linux" "windows" exitsZero
                rootNodeConf "node1" [] Hp Ht eq_refl Hn) as H.
  vm_compute in H |- *. exact H.
Defined.

Lemma node_of_subdomain_cluster_keeps_label_witness :
  has_byte "." "node1" = false /\
  onConfigProxy "linux" "windows" exitsZero subdomainNodeConf []
  = (None,
     [EvSpawn (sshChild "/usr/bin/ssh"
                 ["-p"; "3023"; "example.com"; "-s";
                  "proxy:node1.leaf:3022@leaf.example.com"])]).
Proof.
  assert (Hp : Net.SplitHostPort (Proxy subdomainNodeConf)
               = Ok ("example.com", "3023")) by (vm_compute; reflexivity).
  assert (Ht : Net.SplitHostPort (ConfigProxyTarget subdomainNodeConf)
               = Ok ("node1" ++ "." ++ "leaf" ++ "." ++ "example.com", "3022"))
    by (vm_compute; reflexivity).
  assert (Hd : has_byte "." "node1" = false) by (vm_compute; reflexivity).
  split; [exact Hd |].
  pose proof (node_of_subdomain_cluster_keeps_label "linux" "windows"
                exitsZero subdomainNodeConf "node1" "leaf" [] Hp Ht eq_refl
                Hd) as H.
  vm_compute in H |- *. exact H.
Defined.
